(** * The monitor controller of [aqi.sensor]

  A shallow embedding of [src/aqi/sensor.py] (class [AirQualitySensor]):
  the night-time gate, the aggregator, the persistence store and the
  mode-driven monitoring loop, followed by the properties the
  specification states about them.

  The controller is stateful and talks to collaborators that live outside
  the module (the sensor driver, the AQI calculator, the JSON codec, the
  [Reading] class, the local clock, the file system).  The embedding keeps
  the state explicit (a [World]) and threads it through a small state and
  exception monad; the collaborators are the methods of two type classes. *)

From Stdlib Require Import ZArith Lia String Ascii.
From stdpp Require Import base option list strings gmap fin_maps.

Set Warnings "-register-all".
Local Open Scope Z_scope.

(** ** Numbers

  The fields [time], [pm25] and [pm10] of a measurement are Python
  numbers.  The controller only uses [0], [+] and [/ 2] on them, so the
  embedding is generic in the number type and in these three operations
  (no law about them is assumed). *)

Class PyNum (num : Type) := {
  nzero : num;
  nadd : num -> num -> num;
  nhalf : num -> num
}.

#[export] Instance PyNum_Z : PyNum Z :=
  {| nzero := 0; nadd := Z.add; nhalf := fun z => z / 2 |}.

(** [sum(iterable)]: starts from [0] and adds the items from left to right. *)
Definition py_sum {num} `{PyNum num} (xs : list num) : num :=
  fold_left nadd xs nzero.

(** ** Exceptions and outcomes *)

Inductive exn : Type :=
  | IndexError
  | TypeError
  | ValueError
  | IsADirectoryError
  | FileNotFoundError
  | KeyboardInterrupt
  | DriverError (code : nat).

(** What an invocation does: return a value, raise, or still be running when
  the observation budget of an unbounded loop is used up ([Cut]). *)
Inductive outcome (A : Type) : Type :=
  | Ok (a : A)
  | Exc (e : exn)
  | Cut.
Arguments Ok {A} a.
Arguments Exc {A} e.
Arguments Cut {A}.

(** ** Modes ([measurement_modes]): durations are numbers of seconds, the
  monitoring duration is a [timedelta] (microseconds). *)

Record Mode : Type := {
  measurement_period : Z;
  sleep_time : Z;
  monitoring_duration : option Z;
  aggregation : option string;
  night_monitoring : bool
}.

Definition set_sleep_time (z : Z) (m : Mode) : Mode :=
  {| measurement_period := measurement_period m;
     sleep_time := z;
     monitoring_duration := monitoring_duration m;
     aggregation := aggregation m;
     night_monitoring := night_monitoring m |}.

Definition set_night_monitoring (b : bool) (m : Mode) : Mode :=
  {| measurement_period := measurement_period m;
     sleep_time := sleep_time m;
     monitoring_duration := monitoring_duration m;
     aggregation := aggregation m;
     night_monitoring := b |}.

Definition set_window (d : option Z) (a : option string) (m : Mode) : Mode :=
  {| measurement_period := measurement_period m;
     sleep_time := sleep_time m;
     monitoring_duration := d;
     aggregation := a;
     night_monitoring := night_monitoring m |}.

(** Truth value of [mode.monitoring_duration]: [None] and a zero
  [timedelta] are false. *)
Definition duration_truthy (d : option Z) : bool :=
  match d with
  | Some z => negb (z =? 0)
  | None => false
  end.

(** Truth value of [mode.aggregation]: [None] and the empty string are
  false. *)
Definition aggregation_truthy (a : option string) : bool :=
  match a with
  | Some s => negb (String.eqb s "")
  | None => false
  end.

Definition is_mean (a : option string) : bool :=
  match a with
  | Some s => String.eqb s "mean"
  | None => false
  end.

(** ** The night-time gate *)

Module TimeOfDay.

(** [datetime.time]: compared as the tuple (hour, minute, second,
    microsecond). *)
Record t : Type := mk {
  hour : Z;
  minute : Z;
  second : Z;
  microsecond : Z
}.

Definition compare (a b : t) : comparison :=
  match hour a ?= hour b with
  | Eq =>
      match minute a ?= minute b with
      | Eq =>
          match second a ?= second b with
          | Eq => microsecond a ?= microsecond b
          | c => c
          end
      | c => c
      end
  | c => c
  end.

Definition ltb (a b : t) : bool :=
  match compare a b with Lt => true | _ => false end.

Definition geb (a b : t) : bool :=
  match compare a b with Lt => false | _ => true end.

(** [datetime.datetime.now().time()] for a clock counting microseconds of
    local time. *)
Definition of_clock (c : Z) : t :=
  let us := c mod 86400000000 in
  {| hour := us / 3600000000;
     minute := (us / 60000000) mod 60;
     second := (us / 1000000) mod 60;
     microsecond := us mod 1000000 |}.

Definition well_formed (a : t) : Prop :=
  0 <= hour a < 24 /\ 0 <= minute a < 60 /\ 0 <= second a < 60
  /\ 0 <= microsecond a < 1000000.

End TimeOfDay.

Definition night_start : TimeOfDay.t := TimeOfDay.mk 21 0 0 0.
Definition night_end : TimeOfDay.t := TimeOfDay.mk 9 30 0 0.

(** [is_night], as a function of the value [now] it reads from the clock:
  [return now >= night_start and now < night_end]. *)
Definition is_night_at (now : TimeOfDay.t) : bool :=
  TimeOfDay.geb now night_start && TimeOfDay.ltb now night_end.

(** The night window as the specification words it: [21:00 <= t] or
  [t < 09:30].  Not taken from the code; used only for comparison. *)
Definition night_spec (t : TimeOfDay.t) : bool :=
  TimeOfDay.geb t night_start || TimeOfDay.ltb t night_end.

(** ** Python list indexing *)

(** [l[0]] *)
Definition py_first {A} (l : list A) : outcome A :=
  match l !! 0%nat with
  | Some x => Ok x
  | None => Exc IndexError
  end.

(** [l[-1]] *)
Definition py_last {A} (l : list A) : outcome A :=
  match last l with
  | Some x => Ok x
  | None => Exc IndexError
  end.

Definition READINGS_FILE : string := "readings.json".

(** ** Measurements, readings and JSON values *)

Section Data.

Context {num : Type}.

(** A raw measurement: what the sensor driver's [query_data] returns and
    what [aggregate_readings] builds (keys [time], [pm25], [pm10]). *)
Record Raw : Type := {
  raw_time : num;
  raw_pm25 : num;
  raw_pm10 : num
}.

(** [aqi.reading.Reading]: the measurement and what the calculator attaches
    to it (index values and bands, opaque to the controller). *)
Record Reading {bands : Type} : Type := {
  time : num;
  pm25 : num;
  pm10 : num;
  indices : bands
}.

Inductive json : Type :=
  | JNull
  | JBool (b : bool)
  | JNum (n : num)
  | JStr (s : string)
  | JArr (items : list json)
  | JObj (members : list (string * json)).

(** What a [for] over a decoded JSON value visits: the items of an array,
    the keys of an object, the characters of a string; the other values
    are not iterable. *)
Definition py_iter (j : json) : option (list json) :=
  match j with
  | JArr items => Some items
  | JObj members => Some (map (fun kv => JStr (fst kv)) members)
  | JStr s =>
      Some (map (fun c => JStr (String c EmptyString))
                (String.list_ascii_of_string s))
  | _ => None
  end.

End Data.

Arguments Raw : clear implicits.
Arguments Reading : clear implicits.
Arguments json : clear implicits.

(** ** The collaborators *)

(** The calculator, the [Reading] class and the JSON codec over the bytes
    of a file ([content]).  [None] stands for a call that raises. *)
Class Collaborators (num bands content : Type) := {
  (* AQICalculator.calculate_aqis_and_bands *)
  calculate_aqis_and_bands : Raw num -> Reading num bands;
  (* Reading.to_dict, Reading.from_dict *)
  to_dict : Reading num bands -> json num;
  from_dict : json num -> option (Reading num bands);
  (* json.load, json.dump *)
  json_load : content -> option (json num);
  json_dump : json num -> content;
  (* what open(path, 'w') leaves in the file *)
  empty_content : content
}.

(** The sensor driver and the process's environment.  Calls to the driver
    and to [time.sleep] can be interrupted: the call made when the trace
    holds [n] events raises [e] when [fault n = Some e].  [sample n] is the
    raw measurement the driver returns to a query made at that point. *)
Class Driver (num : Type) := {
  fault : nat -> option exn;
  sample : nat -> Raw num
}.

Section Controller.

Context {num bands content : Type}.
Context {Num : PyNum num} {Col : Collaborators num bands content}.
Context {Drv : Driver num}.

(** [[Reading.from_dict(reading) for reading in json.load(f)]]; [None]
    when any step raises. *)
Definition parse_records (c : content) : option (list (Reading num bands)) :=
  j ← json_load c;
  items ← py_iter j;
  mapM from_dict items.

(** [json.dump([reading.to_dict() for reading in all_data], f)] *)
Definition dump_records (l : list (Reading num bands)) : content :=
  json_dump (JArr (map to_dict l)).

(** *** The world the controller runs in *)

Inductive node : Type :=
  | File (c : content)
  | Dir.

Inductive LogMsg : Type :=
  | LogEntering                 (* 'Entering sensor context.' *)
  | LogExiting                  (* 'Exiting sensor context.' *)
  | LogException (e : exn)      (* 'Exception occurred: %s, %s, %s' *)
  | LogContinuous               (* 'Starting continuous infinite loop.' *)
  | LogNonContinuous            (* 'Starting non-continuous infinite loop.' *)
  | LogCycle                    (* 'Carrying out one monitoring cycle.' *)
  | LogTaking                   (* 'Taking a reading.' *)
  | LogAggregating              (* 'Aggregating readings.' *)
  | LogNotFound (path : string) (* 'File at %s not found; creating file' *)
  | LogOpening (path : string)  (* 'Opening file at %s' *)
  | LogCorrupt                  (* 'Data in file is corrupt; resetting ...' *)
  | LogWriting (path : string). (* 'Writing file to %s' *)

(** What the controller does to the outside, in the order it does it. *)
Inductive Event : Type :=
  | EWake                        (* instruction_set.wake() *)
  | ESleep                       (* instruction_set.sleep() *)
  | EQuery                       (* instruction_set.query_data() *)
  | ETimeSleep (seconds : Z)     (* time.sleep(seconds) *)
  | ELog (msg : LogMsg)          (* logger.debug / logger.error *)
  | EPrintMode (m : Mode)        (* print(self.mode) *)
  | EPrintReading (j : json num) (* print(reading.to_dict()) *)
  | EPrintTb (e : exn).          (* traceback.print_tb(exc_tb) *)

Record World : Type := {
  clock : Z;                             (* local time, in microseconds *)
  readings : list (Reading num bands);   (* self.readings *)
  fs : gmap string node;                 (* the files within reach *)
  trace : list Event
}.

Definition set_clock (c : Z) (w : World) : World :=
  {| clock := c; readings := readings w; fs := fs w; trace := trace w |}.

Definition set_readings (l : list (Reading num bands)) (w : World) : World :=
  {| clock := clock w; readings := l; fs := fs w; trace := trace w |}.

Definition set_fs (f : gmap string node) (w : World) : World :=
  {| clock := clock w; readings := readings w; fs := f; trace := trace w |}.

Definition add_event (e : Event) (w : World) : World :=
  {| clock := clock w; readings := readings w; fs := fs w;
     trace := trace w ++ [e] |}.

(** *** The monad *)

Definition M (A : Type) : Type := World -> outcome A * World.

Definition ret {A} (a : A) : M A := fun w => (Ok a, w).

Definition bind {A B} (c : M A) (k : A -> M B) : M B :=
  fun w =>
    match c w with
    | (Ok a, w') => k a w'
    | (Exc e, w') => (Exc e, w')
    | (Cut, w') => (Cut, w')
    end.

Definition raise {A} (e : exn) : M A := fun w => (Exc e, w).

Definition cut {A} : M A := fun w => (Cut, w).

Definition lift {A} (o : outcome A) : M A := fun w => (o, w).

Definition get {A} (f : World -> A) : M A := fun w => (Ok (f w), w).

Definition modify (f : World -> World) : M unit := fun w => (Ok tt, f w).

#[export] Instance M_ret : MRet M := @ret.
#[export] Instance M_bind : MBind M := fun A B k c => bind c k.

(** *** Calls to the outside *)

Definition log (msg : LogMsg) : M unit := modify (add_event (ELog msg)).
Definition emit (e : Event) : M unit := modify (add_event e).

(** A call to the outside: it is recorded, then it returns or raises. *)
Definition external (e : Event) : M unit :=
  fun w =>
    match fault (length (trace w)) with
    | Some x => (Exc x, add_event e w)
    | None => (Ok tt, add_event e w)
    end.

(** [self.instruction_set.wake()] *)
Definition sensor_wake : M unit := external EWake.

(** [self.instruction_set.sleep()] *)
Definition sensor_sleep : M unit := external ESleep.

(** [self.instruction_set.query_data()] *)
Definition query_data : M (Raw num) :=
  fun w =>
    match external EQuery w with
    | (Ok _, w') => (Ok (sample (length (trace w))), w')
    | (Exc x, w') => (Exc x, w')
    | (Cut, w') => (Cut, w')
    end.

(** [time.sleep(seconds)]: a negative argument is a [ValueError]; otherwise
    the caller is blocked and the clock moves on by that much. *)
Definition time_sleep (seconds : Z) : M unit :=
  if seconds <? 0 then raise ValueError
  else
    external (ETimeSleep seconds);;
    modify (fun w => set_clock (clock w + seconds * 1000000) w).

(** [datetime.datetime.now()] *)
Definition now : M Z := get clock.

(** [is_night] *)
Definition is_night : M bool :=
  t ← now;
  mret (is_night_at (TimeOfDay.of_clock t)).

(** *** [take_reading] *)
Definition take_reading (m : Mode) : M unit :=
  log LogTaking;;
  raw ← query_data;
  let reading := calculate_aqis_and_bands raw in
  modify (fun w => set_readings (readings w ++ [reading]) w);;
  emit (EPrintReading (to_dict reading));;
  time_sleep (measurement_period m).

(** *** [aggregate_readings] *)

(** The dictionary [raw_average_reading], its three values evaluated in the
    order of the source. *)
Definition raw_average_reading (rs : list (Reading num bands)) :
    outcome (Raw num) :=
  match py_first rs with
  | Ok r0 =>
      match py_first rs with
      | Ok r0' =>
          match py_last rs with
          | Ok rl =>
              Ok {| raw_time :=
                      nadd (time r0) (nhalf (nadd (time r0') (time rl)));
                    raw_pm25 := py_sum (map pm25 rs);
                    raw_pm10 := py_sum (map pm10 rs) |}
          | Exc e => Exc e
          | Cut => Cut
          end
      | Exc e => Exc e
      | Cut => Cut
      end
  | Exc e => Exc e
  | Cut => Cut
  end.

Definition aggregate_readings (m : Mode) : M unit :=
  log LogAggregating;;
  if negb (aggregation_truthy (aggregation m)) then mret tt
  else if is_mean (aggregation m) then
    rs ← get readings;
    raw ← lift (raw_average_reading rs);
    modify (set_readings [calculate_aqis_and_bands raw])
  else mret tt.

(** *** [save_readings_to_file] *)

(** The [try] block of the read-back: the debug line, then the records of
    the file, or the recovery branch of the bare [except]. *)
Definition read_existing (path : string) (c : content) :
  M (list (Reading num bands)) :=
  log (LogOpening path);;
  match parse_records c with
  | Some existing_data => mret existing_data
  | None => log LogCorrupt;; mret []
  end.

Definition save_readings_to_file (path : string) : M unit :=
  files ← get fs;
  (if bool_decide (is_Some (files !! path)) then mret tt
   else
     log (LogNotFound path);;
     modify (fun w => set_fs (<[path := File empty_content]> (fs w)) w));;
  files ← get fs;
  existing_data ←
    match files !! path with
    | Some (File c) => read_existing path c
    | Some Dir => raise IsADirectoryError
    | None => raise FileNotFoundError
    end;
  buffer ← get readings;
  let all_data := existing_data ++ buffer in
  modify (fun w => set_fs (<[path := File empty_content]> (fs w)) w);;
  log (LogWriting path);;
  modify (fun w => set_fs (<[path := File (dump_records all_data)]> (fs w)) w);;
  modify (set_readings []).

(** *** [_carry_out_monitoring_cycle] *)
Definition _carry_out_monitoring_cycle (m : Mode) (start_time : Z) : M Z :=
  log LogCycle;;
  t ← now;
  let time_spent_monitoring := t - start_time in
  match monitoring_duration m with
  | None => raise TypeError
  | Some duration =>
      if time_spent_monitoring <? duration then
        take_reading m;;
        mret start_time
      else
        aggregate_readings m;;
        save_readings_to_file READINGS_FILE;;
        sensor_sleep;;
        time_sleep (sleep_time m);;
        sensor_wake;;
        now
  end.

(** *** The context manager: [__enter__], [__exit__] and [with self] *)

Definition __enter__ : M unit :=
  log LogEntering;;
  sensor_wake.

Definition __exit__ (exc : option exn) : M unit :=
  log LogExiting;;
  match exc with
  | Some e => emit (ELog (LogException e));; emit (EPrintTb e)
  | None => mret tt
  end;;
  sensor_sleep;;
  save_readings_to_file READINGS_FILE.

(** [with self: body].  [__exit__] returns [None], so an exception of the
    body is raised again once [__exit__] has returned; an exception of
    [__exit__] itself replaces it.  A body that is still running has not
    been exited. *)
Definition exiting {A} (body : M A) : M A :=
  fun w =>
    match body w with
    | (Ok a, w1) =>
        match __exit__ None w1 with
        | (Ok _, w2) => (Ok a, w2)
        | (Exc e', w2) => (Exc e', w2)
        | (Cut, w2) => (Cut, w2)
        end
    | (Exc e, w1) =>
        match __exit__ (Some e) w1 with
        | (Ok _, w2) => (Exc e, w2)
        | (Exc e', w2) => (Exc e', w2)
        | (Cut, w2) => (Cut, w2)
        end
    | (Cut, w1) => (Cut, w1)
    end.

Definition with_self {A} (body : M A) : M A :=
  __enter__;;
  exiting body.

(** *** [monitor] *)

(** One pass through the body of the first [while True]. *)
Definition continuous_iteration (m : Mode) : M unit :=
  if negb (night_monitoring m) then
    night ← is_night;
    if (night : bool) then mret tt
    else take_reading m
  else take_reading m.

(** One pass through the body of the second [while True]; the value is the
    [start_time] the next pass sees. *)
Definition windowed_iteration (m : Mode) (start_time : Z) : M Z :=
  if negb (night_monitoring m) then
    night ← is_night;
    if (night : bool) then mret start_time
    else if duration_truthy (monitoring_duration m) then
      _carry_out_monitoring_cycle m start_time
    else take_reading m;; mret start_time
  else
    if duration_truthy (monitoring_duration m) then
      _carry_out_monitoring_cycle m start_time
    else take_reading m;; mret start_time.

(** The two [while True] loops, observed for [fuel] passes. *)
Fixpoint continuous_loop (m : Mode) (fuel : nat) : M unit :=
  match fuel with
  | O => cut
  | S fuel' => continuous_iteration m;; continuous_loop m fuel'
  end.

Fixpoint windowed_loop (m : Mode) (fuel : nat) (start_time : Z) : M unit :=
  match fuel with
  | O => cut
  | S fuel' =>
      start_time' ← windowed_iteration m start_time;
      windowed_loop m fuel' start_time'
  end.

(** The block under [with self:]. *)
Definition session (m : Mode) (fuel : nat) (start_time : Z) : M unit :=
  if sleep_time m =? 0 then
    log LogContinuous;;
    continuous_loop m fuel
  else
    log LogNonContinuous;;
    windowed_loop m fuel start_time.

Definition monitor (m : Mode) (fuel : nat) : M unit :=
  emit (EPrintMode m);;
  start_time ← now;
  with_self (session m fuel start_time).

(** ** Auxiliary definitions for the statements *)

(** The synthetic measurement [aggregate_readings] builds from a buffer
    whose first reading is [r0] and whose last reading is [rl]. *)
Definition mean_measurement (rs : list (Reading num bands))
    (r0 rl : Reading num bands) : Raw num :=
  {| raw_time := nadd (time r0) (nhalf (nadd (time r0) (time rl)));
     raw_pm25 := py_sum (map pm25 rs);
     raw_pm10 := py_sum (map pm10 rs) |}.

(** The records a file holds for the controller: what its content parses
    to, and nothing when it does not parse or when there is no file. *)
Definition stored (path : string) (w : World) : list (Reading num bands) :=
  match fs w !! path with
  | Some (File c) => default [] (parse_records c)
  | _ => []
  end.

(** The content [save_readings_to_file] reads back: that of the file, or
    that of the file it has just created. *)
Definition read_back (path : string) (w : World) : content :=
  match fs w !! path with
  | Some (File c) => c
  | _ => empty_content
  end.

(** The debug lines of one flush. *)
Definition flush_log (path : string) (w : World) : list Event :=
  (if bool_decide (is_Some (fs w !! path)) then []
   else [ELog (LogNotFound path)])
  ++ [ELog (LogOpening path)]
  ++ (if parse_records (read_back path w) is Some _ then []
      else [ELog LogCorrupt])
  ++ [ELog (LogWriting path)].

(** The world after a flush that returns. *)
Definition flushed (path : string) (w : World) : World :=
  {| clock := clock w;
     readings := [];
     fs := <[path :=
              File (dump_records
                      (default [] (parse_records (read_back path w))
                       ++ readings w))]> (fs w);
     trace := trace w ++ flush_log path w |}.

(** [emits P c]: from any world, [c] only appends to the trace, and every
    event it appends satisfies [P]. *)
Definition emits (P : Event -> Prop) {A} (c : M A) : Prop :=
  forall w, exists seg, trace (snd (c w)) = trace w ++ seg /\ Forall P seg.

(** The events of one [take_reading] under mode [m]. *)
Definition reading_event (m : Mode) (e : Event) : Prop :=
  match e with
  | ELog LogTaking | EQuery | EPrintReading _ => True
  | ETimeSleep z => z = measurement_period m
  | _ => False
  end.

(** No call made once the trace holds [n] events or more is interrupted. *)
Definition quiet_from (n : nat) : Prop :=
  forall k, (n <= k)%nat -> fault k = None.

(** The world after a [take_reading] that returns. *)
Definition reading_taken (m : Mode) (w : World) : World :=
  let reading := calculate_aqis_and_bands (sample (length (trace w) + 1)) in
  {| clock := clock w + measurement_period m * 1000000;
     readings := readings w ++ [reading];
     fs := fs w;
     trace := trace w ++ [ELog LogTaking; EQuery;
                          EPrintReading (to_dict reading);
                          ETimeSleep (measurement_period m)] |}.

(** The world after the sensor was put to sleep, the caller blocked for
    [z] seconds and the sensor woken. *)
Definition slept (z : Z) (w : World) : World :=
  {| clock := clock w + z * 1000000;
     readings := readings w;
     fs := fs w;
     trace := trace w ++ [ESleep; ETimeSleep z; EWake] |}.

(** The buffer after an aggregation that returns. *)
Definition aggregated (m : Mode) (rs : list (Reading num bands)) :
    list (Reading num bands) :=
  if is_mean (aggregation m) then
    match rs !! 0%nat, last rs with
    | Some r0, Some rl =>
        [calculate_aqis_and_bands (mean_measurement rs r0 rl)]
    | _, _ => rs
    end
  else rs.

(** What the block under [with self:] can emit: anything but the lines of
    [monitor], [__enter__] and [__exit__]. *)
Definition session_event (e : Event) : Prop :=
  match e with
  | ELog LogEntering | ELog LogExiting | ELog (LogException _)
  | EPrintMode _ | EPrintTb _ => False
  | _ => True
  end.

(** Counting events in a stretch of the trace. *)
Definition count (p : Event -> bool) (l : list Event) : nat :=
  length (List.filter p l).

Definition is_sensor_sleep (e : Event) : bool :=
  match e with ESleep => true | _ => false end.

Definition is_exiting (e : Event) : bool :=
  match e with ELog LogExiting => true | _ => false end.

Definition is_file_write (e : Event) : bool :=
  match e with ELog (LogWriting _) => true | _ => false end.

(** The world inside [with self:], before the block runs. *)
Definition entered (m : Mode) (w : World) : World :=
  add_event EWake (add_event (ELog LogEntering) (add_event (EPrintMode m) w)).

(** The world [__exit__] hands to the flush. *)
Definition exited (e : exn) (w : World) : World :=
  add_event ESleep
    (add_event (EPrintTb e)
       (add_event (ELog (LogException e)) (add_event (ELog LogExiting) w))).

(** [c] does not return: it raises or is still running. *)
Definition never_returns {A} (c : M A) : Prop :=
  forall w a, fst (c w) <> Ok a.

(** From [w] to [w']: the files are the same and the buffer has only been
    appended to. *)
Definition grows (w w' : World) : Prop :=
  fs w' = fs w /\ exists new, readings w' = readings w ++ new.

Definition log_event (e : Event) : Prop :=
  match e with
  | ELog _ => True
  | _ => False
  end.

(** [keeps R c]: whatever [c] does, the world it leaves is related by [R]
    to the world it started from. *)
Definition keeps (R : World -> World -> Prop) {A} (c : M A) : Prop :=
  forall w, R w (snd (c w)).

(** From [w] to [w']: the records of the readings file are still there, in
    the same order, possibly followed by more. *)
Definition persisted_grows (w w' : World) : Prop :=
  stored READINGS_FILE w `prefix_of` stored READINGS_FILE w'.

Definition is_query (e : Event) : bool :=
  match e with EQuery => true | _ => false end.

End Controller.

(** * A concrete setting

    Integers for numbers, the larger of the two concentrations for the
    index, and files that hold either a JSON document or bytes that are
    not JSON. *)

Module Demo.

Inductive bytes : Type :=
  | Doc (j : json Z)
  | Garbage (s : string).

Definition reading_to_dict (r : Reading Z Z) : json Z :=
  JObj [("time"%string, JNum (time r)); ("pm25"%string, JNum (pm25 r));
        ("pm10"%string, JNum (pm10 r));
        ("Overall AQI"%string, JNum (indices r))].

Definition reading_from_dict (j : json Z) : option (Reading Z Z) :=
  match j with
  | JObj [(k1, JNum t); (k2, JNum a); (k3, JNum b); (k4, JNum i)] =>
      if (String.eqb k1 "time" && String.eqb k2 "pm25"
          && String.eqb k3 "pm10" && String.eqb k4 "Overall AQI")%bool
      then Some {| time := t; pm25 := a; pm10 := b; indices := i |}
      else None
  | _ => None
  end.

Definition calculate (raw : Raw Z) : Reading Z Z :=
  {| time := raw_time raw; pm25 := raw_pm25 raw; pm10 := raw_pm10 raw;
     indices := Z.max (raw_pm25 raw) (raw_pm10 raw) |}.

#[export] Instance collaborators : Collaborators Z Z bytes :=
  {| calculate_aqis_and_bands := calculate;
     to_dict := reading_to_dict;
     from_dict := reading_from_dict;
     json_load := fun c => match c with Doc j => Some j | Garbage _ => None end;
     json_dump := Doc;
     empty_content := Garbage "" |}.

Definition measure (n : nat) : Raw Z :=
  {| raw_time := Z.of_nat n; raw_pm25 := 5; raw_pm10 := 10 |}.

(** A driver that is never interrupted. *)
#[export] Instance steady : Driver Z :=
  {| fault := fun _ => None; sample := measure |}.

(** A driver whose call at trace position 9 fails. *)
Definition failing : Driver Z :=
  {| fault := fun n => if (n =? 9)%nat then Some (DriverError 7) else None;
     sample := measure |}.

Definition reading (t a b : Z) : Reading Z Z :=
  {| time := t; pm25 := a; pm10 := b; indices := Z.max a b |}.

Definition world (c : Z) (rs : list (Reading Z Z))
    (files : gmap string (@node bytes)) : @World Z Z bytes :=
  {| clock := c; readings := rs; fs := files; trace := [] |}.

Definition continuous : Mode :=
  {| measurement_period := 1; sleep_time := 0; monitoring_duration := None;
     aggregation := None; night_monitoring := false |}.

Definition plain_windowed : Mode :=
  {| measurement_period := 1; sleep_time := 5; monitoring_duration := None;
     aggregation := None; night_monitoring := false |}.

Definition averaging : Mode :=
  {| measurement_period := 3; sleep_time := 5;
     monitoring_duration := Some 10000000;
     aggregation := Some "mean"%string; night_monitoring := true |}.

Definition two_readings : @World Z Z bytes :=
  world 0 [reading 100 5 10; reading 104 7 9] ∅.

Definition over_one_record : @World Z Z bytes :=
  world 0 [reading 104 7 9]
    {[ READINGS_FILE :=
         File (Doc (JArr [reading_to_dict (reading 100 5 10)])) ]}.

Definition nothing_buffered : @World Z Z bytes := world 0 [] ∅.

Definition five_seconds_in : @World Z Z bytes := world 5000000 [] ∅.

Definition eleven_seconds_in : @World Z Z bytes :=
  world 11000000 [reading 100 5 10; reading 104 7 9] ∅.

Definition over_garbage : @World Z Z bytes :=
  world 0 [reading 108 3 4] {[ READINGS_FILE := File (Garbage "}{") ]}.

(** A driver whose call at trace position [n] raises [e]. *)
Definition failing_at (n : nat) (e : exn) : Driver Z :=
  {| fault := fun k => if (k =? n)%nat then Some e else None;
     sample := measure |}.

(** A driver whose calls at trace positions 9 and 13 fail. *)
Definition failing_twice : Driver Z :=
  {| fault := fun k =>
       if (k =? 9)%nat then Some (DriverError 7)
       else if (k =? 13)%nat then Some (DriverError 8)
       else None;
     sample := measure |}.

Definition median : Mode :=
  {| measurement_period := 3; sleep_time := 5;
     monitoring_duration := Some 10000000;
     aggregation := Some "median"%string; night_monitoring := true |}.

Definition readings_is_directory : @World Z Z bytes :=
  world 0 [reading 100 5 10] {[ READINGS_FILE := Dir ]}.

Definition eleven_seconds_empty : @World Z Z bytes := world 11000000 [] ∅.

(** The world in which the second query of a continuous session failed. *)
Definition interrupted : @World Z Z bytes :=
  snd (session (Drv := failing) continuous 5 0
         (entered continuous nothing_buffered)).

Definition interrupted_twice : @World Z Z bytes :=
  snd (session (Drv := failing_twice) continuous 5 0
         (entered continuous nothing_buffered)).

Definition interrupted_over_directory : @World Z Z bytes :=
  snd (session (Drv := failing) continuous 5 0
         (entered continuous readings_is_directory)).

End Demo.

(** * Properties *)

Section Properties.

Context {num bands content : Type}.
Context {Num : PyNum num} {Col : Collaborators num bands content}.
Context {Drv : Driver num}.

Local Abbreviation World := (@World num bands content).
Local Abbreviation M := (@M num bands content).
Local Abbreviation Event := (@Event num).

(** Unfolds the monadic plumbing down to matches on worlds. *)
Ltac run :=
  repeat (unfold mbind, M_bind, mret, M_ret, bind, ret, log, emit, modify,
          get, lift, raise, cut, now in *; simpl in *).

(** Unfolds the updates of a world and puts traces in normal form. *)
Ltac worlds :=
  unfold set_readings, set_fs, set_clock, add_event in *; simpl in *;
  rewrite <- ?app_assoc; simpl.

(** ** The night-time gate *)

(** No time of day is both at or after 21:00 and before 09:30. *)
Lemma is_night_at_false (t : TimeOfDay.t) : is_night_at t = false.
Proof.
  unfold is_night_at, TimeOfDay.geb, TimeOfDay.ltb, TimeOfDay.compare.
  simpl.
  destruct (Z.compare_spec (TimeOfDay.hour t) 21) as [H21|H21|H21];
    destruct (Z.compare_spec (TimeOfDay.hour t) 9) as [H9|H9|H9];
    try lia; try reflexivity;
    repeat match goal with
           | |- context [match ?c with Eq => _ | Lt => _ | Gt => _ end] =>
               destruct c
           end; reflexivity.
Qed.

Lemma is_night_false (w : World) : is_night w = (Ok false, w).
Proof. unfold is_night. run. now rewrite is_night_at_false. Qed.

(** C2.  At 22:00:00, at 21:00:00 and at 03:00:00 the night window of the
    specification holds, and [is_night] answers [False]: the two tests of
    the window are joined by [and], which no time of day satisfies. *)
Theorem is_night_denies_the_night :
  (TimeOfDay.well_formed (TimeOfDay.mk 22 0 0 0)
   /\ night_spec (TimeOfDay.mk 22 0 0 0) = true
   /\ is_night_at (TimeOfDay.mk 22 0 0 0) = false)
  /\ (night_spec (TimeOfDay.mk 21 0 0 0) = true
      /\ is_night_at (TimeOfDay.mk 21 0 0 0) = false)
  /\ (night_spec (TimeOfDay.mk 3 0 0 0) = true
      /\ is_night_at (TimeOfDay.mk 3 0 0 0) = false).
Proof.
  unfold TimeOfDay.well_formed. simpl.
  repeat split; solve [reflexivity | lia].
Qed.

(** ** The aggregator *)

Lemma aggregation_truthy_mean (a : option string) :
  is_mean a = true -> aggregation_truthy a = true.
Proof.
  destruct a as [s|]; simpl; [|discriminate].
  intros Hs. apply String.eqb_eq in Hs. now subst.
Qed.

Lemma py_first_nonempty {A} (l : list A) :
  l <> [] -> exists x, l !! 0%nat = Some x /\ py_first l = Ok x.
Proof. destruct l as [|x l]; [congruence|]. intros _. now exists x. Qed.

Lemma py_last_nonempty {A} (l : list A) :
  l <> [] -> exists x, last l = Some x /\ py_last l = Ok x.
Proof.
  intros Hl. unfold py_last.
  destruct (last l) as [x|] eqn:E; [now exists x|].
  apply last_None in E. congruence.
Qed.

Lemma raw_average_reading_ok (rs : list (Reading num bands)) r0 rl :
  rs !! 0%nat = Some r0 -> last rs = Some rl ->
  raw_average_reading rs = Ok (mean_measurement rs r0 rl).
Proof.
  intros H0 Hl. unfold raw_average_reading, py_first, py_last.
  now rewrite H0, Hl.
Qed.

Lemma aggregate_mean_ok (m : Mode) (w : World) r0 rl :
  is_mean (aggregation m) = true ->
  readings w !! 0%nat = Some r0 -> last (readings w) = Some rl ->
  aggregate_readings m w =
    (Ok tt,
     set_readings
       [calculate_aqis_and_bands (mean_measurement (readings w) r0 rl)]
       (add_event (ELog LogAggregating) w)).
Proof.
  intros Hm H0 Hl. unfold aggregate_readings.
  rewrite (aggregation_truthy_mean _ Hm), Hm. run.
  now rewrite (raw_average_reading_ok _ _ _ H0 Hl).
Qed.

Lemma aggregate_mean_empty (m : Mode) (w : World) :
  is_mean (aggregation m) = true -> readings w = [] ->
  aggregate_readings m w = (Exc IndexError, add_event (ELog LogAggregating) w).
Proof.
  intros Hm Hr. unfold aggregate_readings.
  rewrite (aggregation_truthy_mean _ Hm), Hm. run.
  now rewrite Hr.
Qed.

Lemma aggregate_other (m : Mode) (w : World) :
  is_mean (aggregation m) = false ->
  aggregate_readings m w = (Ok tt, add_event (ELog LogAggregating) w).
Proof.
  intros Hm. unfold aggregate_readings. rewrite Hm.
  now destruct (aggregation_truthy (aggregation m)).
Qed.

(** C6.  With [aggregation == 'mean'] and a non-empty buffer whose first
    and last readings are [r0] and [rl], [aggregate_readings] calls the
    calculator on one measurement whose [pm25] and [pm10] are the [sum]s of
    the buffered values (no division) and whose [time] is
    [r0.time + (r0.time + rl.time) / 2], and the buffer becomes the
    one-element list holding the calculator's answer. *)
Theorem aggregate_mean_measurement (m : Mode) (w : World) :
  aggregation m = Some "mean"%string ->
  readings w <> [] ->
  exists r0 rl,
    readings w !! 0%nat = Some r0 /\ last (readings w) = Some rl /\
    let raw :=
      {| raw_time := nadd (time r0) (nhalf (nadd (time r0) (time rl)));
         raw_pm25 := fold_left nadd (map pm25 (readings w)) nzero;
         raw_pm10 := fold_left nadd (map pm10 (readings w)) nzero |} in
    let (o, w') := aggregate_readings m w in
    o = Ok tt /\ readings w' = [calculate_aqis_and_bands raw].
Proof.
  intros Hm Hne.
  destruct (py_first_nonempty _ Hne) as (r0 & H0 & _).
  destruct (py_last_nonempty _ Hne) as (rl & Hl & _).
  exists r0, rl. split; [assumption|]. split; [assumption|].
  rewrite (aggregate_mean_ok m w r0 rl); [|now rewrite Hm|assumption..].
  split; reflexivity.
Qed.

(** C7.  With [aggregation == 'mean'], a buffer of at least one reading is
    replaced by a buffer of exactly one reading. *)
Theorem aggregate_mean_singleton (m : Mode) (w : World) :
  aggregation m = Some "mean"%string ->
  (1 <= length (readings w))%nat ->
  fst (aggregate_readings m w) = Ok tt
  /\ length (readings (snd (aggregate_readings m w))) = 1%nat.
Proof.
  intros Hm Hlen.
  assert (Hne : readings w <> [])
    by (destruct (readings w); simpl in *; [lia|congruence]).
  destruct (py_first_nonempty _ Hne) as (r0 & H0 & _).
  destruct (py_last_nonempty _ Hne) as (rl & Hl & _).
  rewrite (aggregate_mean_ok m w r0 rl); [|now rewrite Hm|assumption..].
  split; reflexivity.
Qed.

(** C8.  With [aggregation] unset, [aggregate_readings] returns at once:
    the buffer, the files and the clock are what they were, and the only
    thing emitted is the debug line at the head of the method. *)
Theorem aggregate_unset_noop (m : Mode) (w : World) :
  aggregation m = None ->
  let (o, w') := aggregate_readings m w in
  o = Ok tt /\ readings w' = readings w /\ fs w' = fs w
  /\ clock w' = clock w /\ trace w' = trace w ++ [ELog LogAggregating].
Proof.
  intros Hm. rewrite aggregate_other; [|now rewrite Hm].
  repeat split; reflexivity.
Qed.

(** C10.  With [aggregation == 'mean'] the method indexes [readings[0]] and
    [readings[-1]]: on a non-empty buffer both are in bounds and the method
    returns; on an empty buffer it raises [IndexError] and leaves the
    buffer as it was. *)
Theorem aggregate_mean_needs_reading (m : Mode) (w : World) :
  aggregation m = Some "mean"%string ->
  (readings w <> [] ->
   (exists r0 rl, py_first (readings w) = Ok r0 /\ py_last (readings w) = Ok rl)
   /\ fst (aggregate_readings m w) = Ok tt)
  /\ (readings w = [] ->
      fst (aggregate_readings m w) = Exc IndexError
      /\ readings (snd (aggregate_readings m w)) = readings w).
Proof.
  intros Hm. split.
  - intros Hne.
    destruct (py_first_nonempty _ Hne) as (r0 & H0 & Hf).
    destruct (py_last_nonempty _ Hne) as (rl & Hl & Hla).
    split; [now exists r0, rl|].
    rewrite (aggregate_mean_ok m w r0 rl);
      [reflexivity|now rewrite Hm|assumption..].
  - intros He. rewrite aggregate_mean_empty; [|now rewrite Hm|assumption].
    split; reflexivity.
Qed.

(** ** The persistence store *)

Lemma save_returns (path : string) (w : World) :
  fs w !! path <> Some Dir ->
  save_readings_to_file path w = (Ok tt, flushed path w).
Proof.
  intros Hdir. unfold save_readings_to_file, flushed, flush_log, read_back.
  run. destruct (fs w !! path) as [[c|]|] eqn:E; [|congruence|].
  - rewrite bool_decide_eq_true_2 by eauto. run. rewrite E.
    unfold read_existing. run.
    destruct (parse_records c) as [l|]; run; worlds;
      rewrite insert_insert_eq; reflexivity.
  - rewrite bool_decide_eq_false_2 by (intros [? ?]; congruence). run.
    rewrite lookup_insert_eq. unfold read_existing. run.
    destruct (parse_records empty_content) as [l|]; run; worlds;
      rewrite !insert_insert_eq; reflexivity.
Qed.

Lemma save_on_directory (path : string) (w : World) :
  fs w !! path = Some Dir ->
  save_readings_to_file path w = (Exc IsADirectoryError, w).
Proof.
  intros E. unfold save_readings_to_file. run. rewrite E.
  rewrite bool_decide_eq_true_2 by eauto. run. now rewrite E.
Qed.

(** A flush returns exactly when the path is not a directory. *)
Lemma save_returns_iff (path : string) (w : World) :
  fst (save_readings_to_file path w) = Ok tt <-> fs w !! path <> Some Dir.
Proof.
  split.
  - intros Hok E. rewrite (save_on_directory _ _ E) in Hok. discriminate.
  - intros Hdir. now rewrite save_returns.
Qed.

(** A flush leaves the other files alone. *)
Lemma save_other_paths (path other : string) (w : World) :
  path <> other ->
  fs (snd (save_readings_to_file path w)) !! other = fs w !! other.
Proof.
  intros Hne. destruct (fs w !! path) as [[c|]|] eqn:E.
  - rewrite save_returns by congruence. simpl. now rewrite lookup_insert_ne.
  - now rewrite save_on_directory.
  - rewrite save_returns by congruence. simpl. now rewrite lookup_insert_ne.
Qed.

Section Codec.

(** What the controller relies on from [json] and [Reading]: decoding what
    was encoded gives it back, and an empty file is not a JSON document. *)
Hypothesis json_round_trip : forall j, json_load (json_dump j) = Some j.
Hypothesis dict_round_trip : forall r, from_dict (to_dict r) = Some r.
Hypothesis empty_not_json : json_load empty_content = None.

Lemma mapM_from_dict (l : list (Reading num bands)) :
  mapM from_dict (map to_dict l) = Some l.
Proof.
  apply mapM_Some. induction l as [|r l IH]; simpl; constructor; auto.
Qed.

Lemma parse_dump (l : list (Reading num bands)) :
  parse_records (dump_records l) = Some l.
Proof.
  unfold parse_records, dump_records. rewrite json_round_trip. simpl.
  apply mapM_from_dict.
Qed.

Lemma parse_empty : parse_records empty_content = None.
Proof. unfold parse_records. now rewrite empty_not_json. Qed.

Lemma read_back_stored (path : string) (w : World) :
  fs w !! path <> Some Dir ->
  default [] (parse_records (read_back path w)) = stored path w.
Proof.
  intros Hdir. unfold read_back, stored.
  destruct (fs w !! path) as [[c|]|]; [reflexivity|congruence|].
  now rewrite parse_empty.
Qed.

(** C1.  After a call of [save_readings_to_file path] that returns, the
    file holds the dump of the records it held before followed by the
    buffer, it parses back to exactly that list, and the buffer is empty. *)
Theorem save_appends_buffer (path : string) (w : World) :
  fst (save_readings_to_file path w) = Ok tt ->
  let w' := snd (save_readings_to_file path w) in
  fs w' !! path = Some (File (dump_records (stored path w ++ readings w)))
  /\ stored path w' = stored path w ++ readings w
  /\ readings w' = [].
Proof.
  intros Hok. apply save_returns_iff in Hok.
  rewrite save_returns by assumption. simpl.
  unfold stored at 2. simpl. rewrite lookup_insert_eq, parse_dump.
  rewrite read_back_stored by assumption. auto.
Qed.

(** C3.  When the file's content does not parse as a list of records,
    [save_readings_to_file] returns all the same, and the file then holds
    the records of the buffer and nothing else. *)
Theorem save_over_corrupt_file (path : string) (c : content) (w : World) :
  fs w !! path = Some (File c) ->
  parse_records c = None ->
  let (o, w') := save_readings_to_file path w in
  o = Ok tt
  /\ fs w' !! path = Some (File (dump_records (readings w)))
  /\ stored path w' = readings w
  /\ readings w' = [].
Proof.
  intros E Hc. rewrite save_returns by congruence.
  unfold flushed, stored, read_back. simpl.
  rewrite lookup_insert_eq, E, Hc, parse_dump. auto.
Qed.

End Codec.

(** ** What a computation adds to the trace *)

Lemma emits_silent {A} (P : Event -> Prop) (c : M A) :
  (forall w, trace (snd (c w)) = trace w) -> emits P c.
Proof.
  intros Hc w. exists []. rewrite Hc, app_nil_r.
  split; [reflexivity|constructor].
Qed.

Lemma emits_one {A} (P : Event -> Prop) (c : M A) (e : Event) :
  P e -> (forall w, trace (snd (c w)) = trace w ++ [e]) -> emits P c.
Proof.
  intros He Hc w. exists [e]. rewrite Hc. split; [reflexivity|].
  constructor; [assumption|constructor].
Qed.

Lemma emits_bind {A B} (P : Event -> Prop) (c : M A) (k : A -> M B) :
  emits P c -> (forall a, emits P (k a)) -> emits P (c ≫= k).
Proof.
  intros Hc Hk w. unfold mbind, M_bind, bind.
  destruct (Hc w) as (seg & Hseg & HP).
  destruct (c w) as [[a| |] w'] eqn:E; simpl in *; eauto.
  destruct (Hk a w') as (seg' & Hseg' & HP').
  exists (seg ++ seg'). rewrite Hseg', Hseg, app_assoc.
  split; [reflexivity|]. now apply Forall_app.
Qed.

Lemma emits_ret {A} (P : Event -> Prop) (a : A) : emits P (mret a : M A).
Proof. now apply emits_silent. Qed.

Lemma emits_raise {A} (P : Event -> Prop) (e : exn) : emits P (raise e : M A).
Proof. now apply emits_silent. Qed.

Lemma emits_cut {A} (P : Event -> Prop) : emits P (cut : M A).
Proof. now apply emits_silent. Qed.

Lemma emits_lift {A} (P : Event -> Prop) (o : outcome A) :
  emits P (lift o : M A).
Proof. now apply emits_silent. Qed.

Lemma emits_get {A} (P : Event -> Prop) (f : World -> A) : emits P (get f).
Proof. now apply emits_silent. Qed.

Lemma emits_now (P : Event -> Prop) : emits P (now : M Z).
Proof. now apply emits_silent. Qed.

Lemma emits_emit (P : Event -> Prop) (e : Event) :
  P e -> emits P (emit e : M unit).
Proof. intros He. now apply (emits_one P _ e). Qed.

Lemma emits_log (P : Event -> Prop) (msg : LogMsg) :
  P (ELog msg) -> emits P (log msg : M unit).
Proof. apply emits_emit. Qed.

Lemma emits_external (P : Event -> Prop) (e : Event) :
  P e -> emits P (external e : M unit).
Proof.
  intros He. apply (emits_one P _ e); [assumption|].
  intros w. unfold external. now destruct (fault (length (trace w))).
Qed.

Lemma emits_set_readings (P : Event -> Prop)
    (f : World -> list (Reading num bands)) :
  emits P (modify (fun w => set_readings (f w) w)).
Proof. now apply emits_silent. Qed.

Lemma emits_set_fs (P : Event -> Prop) (f : World -> gmap string node) :
  emits P (modify (fun w => set_fs (f w) w)).
Proof. now apply emits_silent. Qed.

Lemma emits_set_clock (P : Event -> Prop) (f : World -> Z) :
  emits P (modify (fun w => set_clock (f w) w)).
Proof. now apply emits_silent. Qed.

Lemma emits_is_night (P : Event -> Prop) : emits P (is_night : M bool).
Proof. apply emits_silent. intros w. now rewrite is_night_false. Qed.

Lemma emits_time_sleep (P : Event -> Prop) (z : Z) :
  P (ETimeSleep z) -> emits P (time_sleep z : M unit).
Proof.
  intros Hz. unfold time_sleep. destruct (z <? 0); [apply emits_raise|].
  apply emits_bind; [now apply emits_external|intros _].
  apply (emits_set_clock P (fun w => clock w + z * 1000000)).
Qed.

Lemma emits_query_data (P : Event -> Prop) :
  P EQuery -> emits P (query_data : M (Raw num)).
Proof.
  intros HP w. destruct (emits_external P EQuery HP w) as (seg & Hseg & Hall).
  exists seg. split; [|assumption].
  unfold query_data. now destruct (external EQuery w) as [[[]| |] w'].
Qed.

Lemma emits_take_reading (P : Event -> Prop) (m : Mode) :
  (forall e, reading_event m e -> P e) -> emits P (take_reading m).
Proof.
  intros HP. unfold take_reading.
  apply emits_bind; [apply emits_log, HP; exact I|intros _].
  apply emits_bind; [apply emits_query_data, HP; exact I|intros raw].
  apply emits_bind.
  { apply (emits_set_readings P
             (fun w => readings w ++ [calculate_aqis_and_bands raw])). }
  intros _. apply emits_bind; [apply emits_emit, HP; exact I|intros _].
  apply emits_time_sleep, HP. reflexivity.
Qed.

(** ** The windowed loop of a mode without [monitoring_duration] *)

Lemma windowed_iteration_plain (m : Mode) (s : Z) (w : World) :
  duration_truthy (monitoring_duration m) = false ->
  windowed_iteration m s w =
    if negb (night_monitoring m) && is_night_at (TimeOfDay.of_clock (clock w))
    then (Ok s, w)
    else (take_reading m;; mret s) w.
Proof.
  intros Hd. unfold windowed_iteration. rewrite Hd.
  destruct (night_monitoring m); simpl; [reflexivity|].
  unfold is_night. run.
  now destruct (is_night_at (TimeOfDay.of_clock (clock w))).
Qed.

Lemma windowed_loop_sleep_time (m : Mode) (z : Z) (fuel : nat) :
  duration_truthy (monitoring_duration m) = false ->
  forall s w,
    windowed_loop (set_sleep_time z m) fuel s w = windowed_loop m fuel s w.
Proof.
  intros Hd. induction fuel as [|fuel IH]; intros s w; [reflexivity|].
  simpl. unfold mbind, M_bind, bind.
  rewrite !windowed_iteration_plain by assumption. simpl.
  change (take_reading (set_sleep_time z m)) with (take_reading m).
  destruct (negb (night_monitoring m)
            && is_night_at (TimeOfDay.of_clock (clock w))); [apply IH|].
  destruct ((take_reading m;; mret s) w) as [[s'| |] w']; auto.
Qed.

Lemma emits_windowed_loop_plain (m : Mode) (fuel : nat) :
  duration_truthy (monitoring_duration m) = false ->
  forall s, emits (reading_event m) (windowed_loop m fuel s).
Proof.
  intros Hd. induction fuel as [|fuel IH]; intros s; [apply emits_cut|].
  simpl. apply emits_bind; [|exact IH].
  unfold windowed_iteration. rewrite Hd.
  assert (Hread : emits (reading_event m) (take_reading m;; mret s)).
  { apply emits_bind; [now apply emits_take_reading|].
    intros _. apply emits_ret. }
  destruct (negb (night_monitoring m)); [|exact Hread].
  apply emits_bind; [apply emits_is_night|intros night].
  destruct night; [apply emits_ret|exact Hread].
Qed.

(** ** Runs without interruption *)

Lemma bind_returns {A B} (c : M A) (k : A -> M B) (w w' : World) (a : A) :
  c w = (Ok a, w') -> (c ≫= k) w = k a w'.
Proof. intros Hc. unfold mbind, M_bind, bind. now rewrite Hc. Qed.

(** Puts the length of an extended trace in the form [length _ + n]. *)
Ltac len :=
  simpl; rewrite ?length_app; simpl; rewrite <- ?Nat.add_assoc; simpl.

Lemma external_returns (e : Event) (w : World) :
  fault (length (trace w)) = None -> external e w = (Ok tt, add_event e w).
Proof. intros Hf. unfold external. now rewrite Hf. Qed.

Lemma take_reading_returns (m : Mode) (w : World) :
  0 <= measurement_period m ->
  fault (length (trace w) + 1) = None ->
  fault (length (trace w) + 3) = None ->
  take_reading m w = (Ok tt, reading_taken m w).
Proof.
  intros Hmp Hq Hs. unfold take_reading, query_data, time_sleep, reading_taken.
  destruct (Z.ltb_spec (measurement_period m) 0) as [|_]; [lia|].
  run. rewrite external_returns by (len; exact Hq).
  run. rewrite external_returns by (len; exact Hs).
  worlds. now rewrite length_app.
Qed.

Lemma sleep_block_wake (z : Z) (w : World) :
  0 <= z ->
  quiet_from (length (trace w)) ->
  (sensor_sleep;; time_sleep z;; sensor_wake;; now) w
    = (Ok (clock (slept z w)), slept z w).
Proof.
  intros Hz Hq. unfold sensor_sleep, sensor_wake, time_sleep, slept.
  destruct (Z.ltb_spec z 0) as [|_]; [lia|].
  run. rewrite external_returns by (apply Hq; lia).
  run. rewrite external_returns by (apply Hq; simpl; rewrite length_app; lia).
  run. rewrite external_returns
    by (apply Hq; simpl; rewrite !length_app; lia).
  worlds. reflexivity.
Qed.

Lemma aggregate_returns (m : Mode) (w : World) :
  (is_mean (aggregation m) = true -> readings w <> []) ->
  aggregate_readings m w =
    (Ok tt,
     set_readings (aggregated m (readings w))
       (add_event (ELog LogAggregating) w)).
Proof.
  intros Hne. unfold aggregated.
  destruct (is_mean (aggregation m)) eqn:Hm.
  - specialize (Hne eq_refl).
    destruct (py_first_nonempty _ Hne) as (r0 & H0 & _).
    destruct (py_last_nonempty _ Hne) as (rl & Hl & _).
    rewrite H0, Hl. now apply aggregate_mean_ok.
  - rewrite aggregate_other by assumption. now destruct w.
Qed.

(** ** The session and its teardown *)

Lemma emits_modify (P : Event -> Prop) (f : World -> World) :
  (forall w, trace (f w) = trace w) -> emits P (modify f).
Proof. intros Hf. now apply emits_silent. Qed.

(** Breaks a computation into its steps and leaves the conditions on the
    events it emits. *)
Ltac emits_steps :=
  repeat first
    [ assumption
    | match goal with H : forall s, emits _ _ |- _ => exact (H _) end
    | apply emits_ret | apply emits_raise | apply emits_cut | apply emits_get
    | apply emits_now | apply emits_lift | apply emits_is_night
    | apply emits_log | apply emits_emit | apply emits_external
    | apply emits_time_sleep
    | apply emits_modify; intros ?; reflexivity
    | apply emits_bind; [|intros ?]
    | match goal with
      | |- emits _ (if ?b then _ else _) => destruct b
      | |- emits _ (match ?x with _ => _ end) => destruct x
      end ].

Lemma emits_aggregate_readings (m : Mode) :
  emits session_event (aggregate_readings m).
Proof. unfold aggregate_readings. emits_steps. exact I. Qed.

Lemma emits_save_readings_to_file (path : string) :
  emits session_event (save_readings_to_file path).
Proof.
  unfold save_readings_to_file, read_existing. emits_steps; exact I.
Qed.

Lemma emits_session_take_reading (m : Mode) :
  emits session_event (take_reading m).
Proof.
  apply emits_take_reading. intros [| | | |[]| | |]; simpl; tauto.
Qed.

Lemma emits_monitoring_cycle (m : Mode) (s : Z) :
  emits session_event (_carry_out_monitoring_cycle m s).
Proof.
  pose proof (emits_session_take_reading m).
  pose proof (emits_aggregate_readings m).
  pose proof (emits_save_readings_to_file READINGS_FILE).
  unfold _carry_out_monitoring_cycle, sensor_sleep, sensor_wake.
  emits_steps; solve [exact I | assumption].
Qed.

Lemma emits_continuous_loop (m : Mode) (fuel : nat) :
  emits session_event (continuous_loop m fuel).
Proof.
  pose proof (emits_session_take_reading m).
  induction fuel as [|fuel IH]; simpl; [apply emits_cut|].
  unfold continuous_iteration. emits_steps; assumption.
Qed.

Lemma emits_windowed_loop (m : Mode) (fuel : nat) :
  forall s, emits session_event (windowed_loop m fuel s).
Proof.
  pose proof (emits_session_take_reading m).
  pose proof (emits_monitoring_cycle m).
  induction fuel as [|fuel IH]; intros s; simpl; [apply emits_cut|].
  unfold windowed_iteration. emits_steps; auto.
Qed.

Lemma emits_session (m : Mode) (fuel : nat) (s : Z) :
  emits session_event (session m fuel s).
Proof.
  pose proof (emits_continuous_loop m fuel).
  pose proof (emits_windowed_loop m fuel s).
  unfold session. emits_steps; solve [exact I | assumption].
Qed.

Lemma count_app (p : Event -> bool) (l k : list Event) :
  count p (l ++ k) = (count p l + count p k)%nat.
Proof. unfold count. now rewrite List.filter_app, length_app. Qed.

Lemma count_session_exiting (seg : list Event) :
  Forall session_event seg -> count is_exiting seg = 0%nat.
Proof.
  induction 1 as [|e seg He _ IH]; [reflexivity|].
  change (e :: seg) with ([e] ++ seg). rewrite count_app, IH.
  now destruct e as [| | | |[]| | |].
Qed.

Lemma count_flush_log (path : string) (w : World) :
  count is_sensor_sleep (flush_log path w) = 0%nat
  /\ count is_exiting (flush_log path w) = 0%nat
  /\ count is_file_write (flush_log path w) = 1%nat.
Proof.
  unfold flush_log.
  destruct (bool_decide (is_Some (fs w !! path)));
    destruct (parse_records (read_back path w)); repeat split; reflexivity.
Qed.

Lemma monitor_enters (m : Mode) (fuel : nat) (w : World) :
  fault (length (trace w) + 2) = None ->
  monitor m fuel w = exiting (session m fuel (clock w)) (entered m w).
Proof.
  intros Hw. unfold monitor, with_self, __enter__, sensor_wake. run.
  rewrite external_returns by (len; exact Hw). reflexivity.
Qed.

Lemma exit_returns (e : exn) (w : World) :
  fault (length (trace w) + 3) = None ->
  fs w !! READINGS_FILE <> Some Dir ->
  __exit__ (Some e) w = (Ok tt, flushed READINGS_FILE (exited e w)).
Proof.
  intros Hs Hdir. unfold __exit__, sensor_sleep. run.
  rewrite external_returns by (len; exact Hs). run.
  now rewrite save_returns.
Qed.

(** * Further properties of the controller *)

(** ** The night gate inside the loops *)

(** X1.  [is_night] answers [False] whatever the clock shows, and changes
    nothing. *)
Theorem is_night_always_false :
  (forall t, is_night_at t = false)
  /\ (forall w : World, is_night w = (Ok false, w)).
Proof. split; [apply is_night_at_false|apply is_night_false]. Qed.

Lemma continuous_iteration_reads (m : Mode) (w : World) :
  continuous_iteration m w = take_reading m w.
Proof.
  unfold continuous_iteration. destruct (night_monitoring m); [reflexivity|].
  simpl. rewrite (bind_returns _ _ _ _ _ (is_night_false w)). reflexivity.
Qed.

Lemma windowed_iteration_ungated (m : Mode) (s : Z) (w : World) :
  windowed_iteration m s w =
    if duration_truthy (monitoring_duration m)
    then _carry_out_monitoring_cycle m s w
    else (take_reading m;; mret s) w.
Proof.
  unfold windowed_iteration. destruct (night_monitoring m); simpl.
  - now destruct (duration_truthy (monitoring_duration m)).
  - rewrite (bind_returns _ _ _ _ _ (is_night_false w)).
    now destruct (duration_truthy (monitoring_duration m)).
Qed.

Lemma continuous_loop_night (m : Mode) (b : bool) (fuel : nat) :
  forall w,
    continuous_loop (set_night_monitoring b m) fuel w
    = continuous_loop m fuel w.
Proof.
  induction fuel as [|fuel IH]; intros w; [reflexivity|].
  simpl. unfold mbind, M_bind, bind.
  rewrite !continuous_iteration_reads.
  change (take_reading (set_night_monitoring b m)) with (take_reading m).
  destruct (take_reading m w) as [[[]| |] w']; auto.
Qed.

Lemma windowed_loop_night (m : Mode) (b : bool) (fuel : nat) :
  forall s w,
    windowed_loop (set_night_monitoring b m) fuel s w
    = windowed_loop m fuel s w.
Proof.
  induction fuel as [|fuel IH]; intros s w; [reflexivity|].
  simpl. unfold mbind, M_bind, bind.
  rewrite !windowed_iteration_ungated.
  change (monitoring_duration (set_night_monitoring b m))
    with (monitoring_duration m).
  change (_carry_out_monitoring_cycle (set_night_monitoring b m))
    with (_carry_out_monitoring_cycle m).
  change (take_reading (set_night_monitoring b m)) with (take_reading m).
  destruct (duration_truthy (monitoring_duration m)).
  - destruct (_carry_out_monitoring_cycle m s w) as [[s'| |] w']; auto.
  - destruct ((take_reading m;; mret s) w) as [[s'| |] w']; auto.
Qed.

(** X2.  The value of [night_monitoring] makes no difference to what the block
    under [with self:] does. *)
Theorem night_monitoring_ignored (m : Mode) (b : bool) (fuel : nat) (s : Z)
    (w : World) :
  session (set_night_monitoring b m) fuel s w = session m fuel s w.
Proof.
  unfold session.
  change (sleep_time (set_night_monitoring b m)) with (sleep_time m).
  destruct (sleep_time m =? 0); run.
  - apply continuous_loop_night.
  - apply windowed_loop_night.
Qed.

(** ** The continuous loop *)

Lemma continuous_loop_window (m : Mode) (d : option Z) (a : option string)
    (fuel : nat) :
  forall w,
    continuous_loop (set_window d a m) fuel w = continuous_loop m fuel w.
Proof.
  induction fuel as [|fuel IH]; intros w; [reflexivity|].
  simpl. unfold mbind, M_bind, bind.
  change (continuous_iteration (set_window d a m))
    with (continuous_iteration m).
  destruct (continuous_iteration m w) as [[[]| |] w']; auto.
Qed.

(** X3.  With [sleep_time == 0] the block under [with self:] does not depend on
    [monitoring_duration] or on [aggregation]. *)
Theorem continuous_ignores_window (m : Mode) (d : option Z)
    (a : option string) (fuel : nat) (s : Z) (w : World) :
  sleep_time m = 0 ->
  session (set_window d a m) fuel s w = session m fuel s w.
Proof.
  intros Hz. unfold session.
  change (sleep_time (set_window d a m)) with (sleep_time m).
  rewrite Hz. run. apply continuous_loop_window.
Qed.

Lemma grows_refl (w : World) : grows w w.
Proof. split; [reflexivity|]. exists []. now rewrite app_nil_r. Qed.

Lemma grows_trans (w1 w2 w3 : World) :
  grows w1 w2 -> grows w2 w3 -> grows w1 w3.
Proof.
  intros [Hf1 [n1 Hr1]] [Hf2 [n2 Hr2]]. split; [congruence|].
  exists (n1 ++ n2). now rewrite Hr2, Hr1, app_assoc.
Qed.

Lemma take_reading_grows (m : Mode) (w : World) :
  grows w (snd (take_reading m w)).
Proof.
  unfold take_reading, query_data, time_sleep, external. run.
  destruct (fault (length (trace w ++ [ELog LogTaking])));
    [|destruct (measurement_period m <? 0); run;
      [|destruct (fault _); run]];
    (split; [reflexivity|]);
    first [eexists; reflexivity
          |exists []; simpl; now rewrite app_nil_r].
Qed.

Lemma continuous_loop_grows (m : Mode) (fuel : nat) :
  forall w, grows w (snd (continuous_loop m fuel w)).
Proof.
  induction fuel as [|fuel IH]; intros w; [apply grows_refl|].
  simpl. unfold mbind, M_bind, bind. rewrite continuous_iteration_reads.
  pose proof (take_reading_grows m w) as Hg.
  destruct (take_reading m w) as [[[]| |] w']; simpl in *; auto.
  eapply grows_trans; [exact Hg|apply IH].
Qed.

Lemma emits_continuous_loop_readings (m : Mode) (fuel : nat) :
  emits (reading_event m) (continuous_loop m fuel).
Proof.
  induction fuel as [|fuel IH]; simpl; [apply emits_cut|].
  apply emits_bind; [|intros _; exact IH].
  intros w. rewrite continuous_iteration_reads.
  now apply emits_take_reading.
Qed.

(** X4.  With [sleep_time == 0], interrupted or not, the block under
    [with self:] never writes a file and never takes a reading out of the
    buffer, and all it does to the outside is what [take_reading] does. *)
Theorem continuous_session_only_reads (m : Mode) (fuel : nat) (s : Z)
    (w : World) :
  sleep_time m = 0 ->
  let w' := snd (session m fuel s w) in
  fs w' = fs w
  /\ (exists new, readings w' = readings w ++ new)
  /\ (exists seg,
        trace w' = trace w ++ ELog LogContinuous :: seg
        /\ Forall (reading_event m) seg).
Proof.
  intros Hz. unfold session. rewrite Hz. run.
  destruct (continuous_loop_grows m fuel (add_event (ELog LogContinuous) w))
    as [Hfs Hrs].
  destruct (emits_continuous_loop_readings m fuel
              (add_event (ELog LogContinuous) w)) as (seg & Hseg & HP).
  split; [exact Hfs|]. split; [exact Hrs|].
  exists seg. split; [|exact HP]. rewrite Hseg. simpl.
  now rewrite <- app_assoc.
Qed.

(** ** [monitor] has no way out but an exception *)

Lemma never_returns_bind {A B} (c : M A) (k : A -> M B) :
  (forall a, never_returns (k a)) -> never_returns (c ≫= k).
Proof.
  intros Hk w b. unfold mbind, M_bind, bind.
  destruct (c w) as [[a| |] w']; [apply Hk|discriminate..].
Qed.

Lemma continuous_loop_never_returns (m : Mode) (fuel : nat) :
  never_returns (continuous_loop m fuel).
Proof.
  induction fuel as [|fuel IH]; simpl; [discriminate|].
  apply never_returns_bind. intros _. exact IH.
Qed.

Lemma windowed_loop_never_returns (m : Mode) (fuel : nat) :
  forall s, never_returns (windowed_loop m fuel s).
Proof.
  induction fuel as [|fuel IH]; intros s; simpl; [discriminate|].
  apply never_returns_bind. exact IH.
Qed.

Lemma exiting_never_returns {A} (body : M A) :
  never_returns body -> never_returns (exiting body).
Proof.
  intros Hb w a. unfold exiting. specialize (Hb w).
  destruct (body w) as [[a'| |] w1]; simpl in *.
  - now contradiction (Hb a').
  - now destruct (__exit__ (Some e) w1) as [[[]| |] w2].
  - discriminate.
Qed.

(** X5.  Whatever the mode and however long it is observed, [monitor] does not
    return: it ends with an exception or it is still running. *)
Theorem monitor_never_returns (m : Mode) (fuel : nat) (w : World) :
  fst (monitor m fuel w) <> Ok tt.
Proof.
  assert (Hm : never_returns (monitor m fuel)); [|apply Hm].
  unfold monitor, with_self, session.
  repeat (apply never_returns_bind; intros ?).
  apply exiting_never_returns.
  destruct (sleep_time m =? 0); apply never_returns_bind; intros _.
  - apply continuous_loop_never_returns.
  - apply windowed_loop_never_returns.
Qed.

(** ** Failures around the session *)

(** X6.  When the [wake] of [__enter__] raises, [monitor] raises the same
    exception at once: [__exit__] is not run, so the sensor is not put to
    sleep and nothing is flushed. *)
Theorem failed_wake_skips_teardown (m : Mode) (fuel : nat) (w : World)
    (e : exn) :
  fault (length (trace w) + 2) = Some e ->
  let (o, w') := monitor m fuel w in
  o = Exc e
  /\ trace w' = trace w ++ [EPrintMode m; ELog LogEntering; EWake]
  /\ fs w' = fs w
  /\ readings w' = readings w.
Proof.
  intros Hw. unfold monitor, with_self, __enter__, sensor_wake, external.
  run.
  replace (length (trace w ++ [EPrintMode m] ++ [ELog LogEntering]))
    with (length (trace w) + 2)%nat by (rewrite !length_app; reflexivity).
  run. rewrite !length_app. simpl. rewrite <- Nat.add_assoc. simpl.
  rewrite Hw. worlds. auto.
Qed.

(** X7.  When the [sleep] call of the teardown raises [e'], the flush is not
    reached: [e'] surfaces in place of the exception that interrupted the
    session, the files are as they were and the buffer is still in
    memory. *)
Theorem failed_sleep_skips_flush (m : Mode) (fuel : nat) (w w1 : World)
    (e e' : exn) :
  fault (length (trace w) + 2) = None ->
  session m fuel (clock w) (entered m w) = (Exc e, w1) ->
  fault (length (trace w1) + 3) = Some e' ->
  let (o, w2) := monitor m fuel w in
  o = Exc e'
  /\ fs w2 = fs w1
  /\ readings w2 = readings w1
  /\ trace w2 = trace w1 ++ [ELog LogExiting; ELog (LogException e);
                             EPrintTb e; ESleep].
Proof.
  intros Hwake Hbody Hsleep.
  rewrite monitor_enters by assumption. unfold exiting. rewrite Hbody.
  unfold __exit__, sensor_sleep, external. run.
  rewrite !length_app. simpl. rewrite <- !Nat.add_assoc. simpl.
  rewrite Hsleep. worlds. auto.
Qed.

(** X8.  When the readings file is a directory, the teardown puts the sensor to
    sleep, the flush raises [IsADirectoryError] in place of the exception
    that interrupted the session, and the buffer is still in memory. *)
Theorem teardown_on_directory (m : Mode) (fuel : nat) (w w1 : World)
    (e : exn) :
  fault (length (trace w) + 2) = None ->
  session m fuel (clock w) (entered m w) = (Exc e, w1) ->
  fault (length (trace w1) + 3) = None ->
  fs w1 !! READINGS_FILE = Some Dir ->
  let (o, w2) := monitor m fuel w in
  o = Exc IsADirectoryError
  /\ fs w2 = fs w1
  /\ readings w2 = readings w1
  /\ trace w2 = trace w1 ++ [ELog LogExiting; ELog (LogException e);
                             EPrintTb e; ESleep].
Proof.
  intros Hwake Hbody Hsleep Hdir.
  rewrite monitor_enters by assumption. unfold exiting. rewrite Hbody.
  unfold __exit__, sensor_sleep. run.
  rewrite external_returns by (len; exact Hsleep). run.
  rewrite save_on_directory by exact Hdir. worlds. auto.
Qed.

(** ** [take_reading] *)

(** X9.  An uninterrupted [take_reading] appends to the buffer the calculator's
    reading of the driver's sample, prints it and pauses for
    [measurement_period]; the files are not touched. *)
Theorem take_reading_effect (m : Mode) (w : World) :
  0 <= measurement_period m ->
  fault (length (trace w) + 1) = None ->
  fault (length (trace w) + 3) = None ->
  let reading := calculate_aqis_and_bands (sample (length (trace w) + 1)) in
  let (o, w') := take_reading m w in
  o = Ok tt
  /\ readings w' = readings w ++ [reading]
  /\ clock w' = clock w + measurement_period m * 1000000
  /\ fs w' = fs w
  /\ trace w' = trace w ++ [ELog LogTaking; EQuery;
                            EPrintReading (to_dict reading);
                            ETimeSleep (measurement_period m)].
Proof.
  intros Hmp Hq Hs. rewrite take_reading_returns by assumption.
  unfold reading_taken. simpl. auto.
Qed.

(** X10.  When [query_data] raises, [take_reading] raises with it: the buffer is
    as it was, nothing is printed and there is no pause. *)
Theorem take_reading_failed_query (m : Mode) (w : World) (e : exn) :
  fault (length (trace w) + 1) = Some e ->
  let (o, w') := take_reading m w in
  o = Exc e
  /\ readings w' = readings w
  /\ clock w' = clock w
  /\ trace w' = trace w ++ [ELog LogTaking; EQuery].
Proof.
  intros Hq. unfold take_reading, query_data, external. run.
  rewrite length_app. simpl. rewrite Hq. worlds. auto.
Qed.

(** X11.  When the pause after a reading is interrupted, the reading is already
    in the buffer (and printed). *)
Theorem take_reading_interrupted_pause (m : Mode) (w : World) (e : exn) :
  0 <= measurement_period m ->
  fault (length (trace w) + 1) = None ->
  fault (length (trace w) + 3) = Some e ->
  let reading := calculate_aqis_and_bands (sample (length (trace w) + 1)) in
  let (o, w') := take_reading m w in
  o = Exc e
  /\ readings w' = readings w ++ [reading]
  /\ clock w' = clock w
  /\ trace w' = trace w ++ [ELog LogTaking; EQuery;
                            EPrintReading (to_dict reading);
                            ETimeSleep (measurement_period m)].
Proof.
  intros Hmp Hq Hs. unfold take_reading, query_data, time_sleep.
  destruct (Z.ltb_spec (measurement_period m) 0) as [|_]; [lia|].
  run. rewrite external_returns by (len; exact Hq).
  run. unfold external. simpl. rewrite !length_app. simpl.
  rewrite <- !Nat.add_assoc. simpl. rewrite Hs. worlds. auto.
Qed.

Lemma quiet_from_le (n k : nat) : (n <= k)%nat -> quiet_from n -> quiet_from k.
Proof. intros Hle Hq j Hj. apply Hq. lia. Qed.

Lemma continuous_run_trace (m : Mode) (n : nat) :
  0 <= measurement_period m ->
  forall w,
    quiet_from (length (trace w)) ->
    exists w' seg,
      continuous_loop m n w = (Cut, w')
      /\ length (readings w') = (length (readings w) + n)%nat
      /\ clock w' = clock w + Z.of_nat n * (measurement_period m * 1000000)
      /\ trace w' = trace w ++ seg
      /\ count is_query seg = n
      /\ fs w' = fs w.
Proof.
  intros Hmp. induction n as [|n IH]; intros w Hq.
  - exists w, []. rewrite app_nil_r, Nat.add_0_r.
    repeat split; try reflexivity. simpl. lia.
  - assert (Hstep : continuous_iteration m w = (Ok tt, reading_taken m w)).
    { rewrite continuous_iteration_reads.
      apply take_reading_returns; [assumption|apply Hq; lia..]. }
    assert (Hq' : quiet_from (length (trace (reading_taken m w)))).
    { apply (quiet_from_le (length (trace w))); [|assumption].
      simpl. rewrite length_app. lia. }
    destruct (IH (reading_taken m w) Hq')
      as (w' & seg & Hrun & Hr & Hc & Htr & Hcount & Hfs).
    exists w'. eexists.
    cbn [continuous_loop]. rewrite (bind_returns _ _ _ _ _ Hstep).
    split; [exact Hrun|]. split.
    { rewrite Hr. simpl. rewrite length_app. simpl. lia. }
    split.
    { rewrite Hc. simpl. lia. }
    split.
    { rewrite Htr. simpl. rewrite <- app_assoc. reflexivity. }
    split; [|now rewrite Hfs].
    rewrite count_app, Hcount. reflexivity.
Qed.

(** X12.  An uninterrupted continuous loop observed for [n] passes has taken [n]
    readings, all of them still in the buffer, and [n] pauses of
    [measurement_period]; it has written no file. *)
Theorem continuous_run (m : Mode) (n : nat) (w : World) :
  0 <= measurement_period m ->
  quiet_from (length (trace w)) ->
  let (o, w') := continuous_loop m n w in
  o = Cut
  /\ length (readings w') = (length (readings w) + n)%nat
  /\ clock w' = clock w + Z.of_nat n * (measurement_period m * 1000000)
  /\ count is_query (drop (length (trace w)) (trace w')) = n
  /\ fs w' = fs w.
Proof.
  intros Hmp Hq.
  destruct (continuous_run_trace m n Hmp w Hq)
    as (w' & seg & Hrun & Hr & Hc & Htr & Hcount & Hfs).
  rewrite Hrun, Htr, drop_app_length. auto.
Qed.

(** ** More on the persistence store *)

(** X13.  On a path that is a directory, [save_readings_to_file] raises
    [IsADirectoryError] before anything else happens: no debug line, no
    write, and the buffer is not cleared. *)
Theorem flush_to_directory (path : string) (w : World) :
  fs w !! path = Some Dir ->
  save_readings_to_file path w = (Exc IsADirectoryError, w).
Proof. apply save_on_directory. Qed.

Lemma flush_log_only_logs (path : string) (w : World) :
  Forall log_event (flush_log path w).
Proof.
  unfold flush_log.
  destruct (bool_decide (is_Some (fs w !! path)));
    destruct (parse_records (read_back path w));
    repeat constructor.
Qed.

(** X14.  [save_readings_to_file] leaves the other files and the clock
    alone, and all it shows to the outside are debug lines: it does not
    talk to the sensor and does not pause. *)
Theorem flush_touches_only_its_file (path : string) (w : World) :
  let w' := snd (save_readings_to_file path w) in
  clock w' = clock w
  /\ (forall other, other <> path -> fs w' !! other = fs w !! other)
  /\ (exists seg, trace w' = trace w ++ seg /\ Forall log_event seg).
Proof.
  destruct (fs w !! path) as [[c|]|] eqn:E.
  2: { rewrite save_on_directory by assumption. simpl.
       split; [reflexivity|]. split; [reflexivity|].
       exists []. now rewrite app_nil_r. }
  all: rewrite save_returns by congruence; simpl;
    (split; [reflexivity|]);
    (split; [intros other Hne; now rewrite lookup_insert_ne|]);
    exists (flush_log path w); split;
      [reflexivity|apply flush_log_only_logs].
Qed.

Section CodecAgain.

Hypothesis json_round_trip : forall j, json_load (json_dump j) = Some j.
Hypothesis dict_round_trip : forall r, from_dict (to_dict r) = Some r.
Hypothesis empty_not_json : json_load empty_content = None.

(** X15.  On a path where there is no file, [save_readings_to_file] creates one,
    reads the empty file back through the recovery branch (the 'corrupt'
    line is logged for a file that has just been created) and leaves in it
    the records of the buffer. *)
Theorem flush_creates_missing_file (path : string) (w : World) :
  fs w !! path = None ->
  let (o, w') := save_readings_to_file path w in
  o = Ok tt
  /\ fs w' !! path = Some (File (dump_records (readings w)))
  /\ stored path w' = readings w
  /\ readings w' = []
  /\ trace w' = trace w ++ [ELog (LogNotFound path); ELog (LogOpening path);
                            ELog LogCorrupt; ELog (LogWriting path)].
Proof.
  intros E. rewrite save_returns by congruence.
  unfold flushed, flush_log, stored, read_back. simpl.
  rewrite lookup_insert_eq, E.
  rewrite (parse_empty empty_not_json).
  rewrite (parse_dump json_round_trip dict_round_trip).
  rewrite bool_decide_eq_false_2 by (intros [? ?]; congruence).
  simpl. auto.
Qed.

(** X16.  Two flushes in a row, the buffer holding [second] before the second
    one: the file ends up with its earlier records, then the first buffer,
    then [second]. *)
Theorem flush_twice (path : string) (second : list (Reading num bands))
    (w : World) :
  fs w !! path <> Some Dir ->
  let w1 := snd (save_readings_to_file path w) in
  let (o, w2) := save_readings_to_file path (set_readings second w1) in
  o = Ok tt
  /\ stored path w2 = stored path w ++ readings w ++ second
  /\ readings w2 = [].
Proof.
  intros Hdir. rewrite save_returns by assumption. simpl.
  rewrite save_returns
    by (unfold flushed; simpl; rewrite lookup_insert_eq; congruence).
  split; [reflexivity|]. split; [|reflexivity].
  unfold stored at 1. simpl. rewrite lookup_insert_eq.
  rewrite (parse_dump json_round_trip dict_round_trip). simpl.
  unfold read_back at 1. simpl. rewrite lookup_insert_eq.
  rewrite (parse_dump json_round_trip dict_round_trip). simpl.
  rewrite (read_back_stored empty_not_json) by assumption.
  now rewrite app_assoc.
Qed.

End CodecAgain.

(** ** More on the aggregator *)

(** X17.  With an [aggregation] that is set but is not ['mean'], whatever its
    name, [aggregate_readings] falls through both tests: the buffer is
    left as it is and nothing is raised. *)
Theorem aggregate_unknown_reducer (m : Mode) (name : string) (w : World) :
  aggregation m = Some name ->
  name <> "mean"%string ->
  let (o, w') := aggregate_readings m w in
  o = Ok tt /\ readings w' = readings w /\ fs w' = fs w
  /\ trace w' = trace w ++ [ELog LogAggregating].
Proof.
  intros Ha Hn. rewrite aggregate_other.
  - simpl. auto.
  - rewrite Ha. simpl. now apply String.eqb_neq.
Qed.

(** ** More on the monitoring cycle *)

Lemma cycle_reads (m : Mode) (s d : Z) (w : World) :
  monitoring_duration m = Some d ->
  clock w - s < d ->
  0 <= measurement_period m ->
  quiet_from (length (trace w)) ->
  _carry_out_monitoring_cycle m s w
  = (Ok s, reading_taken m (add_event (ELog LogCycle) w)).
Proof.
  intros Hd Hlt Hmp Hq. unfold _carry_out_monitoring_cycle. rewrite Hd.
  rewrite (bind_returns _ _ w (add_event (ELog LogCycle) w) tt)
    by reflexivity.
  rewrite (bind_returns _ _ _ (add_event (ELog LogCycle) w) (clock w))
    by reflexivity.
  destruct (Z.ltb_spec (clock w - s) d) as [_|]; [|lia].
  rewrite (bind_returns _ _ _ (reading_taken m (add_event (ELog LogCycle) w))
             tt); [reflexivity|].
  apply take_reading_returns; [assumption|apply Hq; len; lia..].
Qed.

Lemma cycle_completes (m : Mode) (s d : Z) (w : World) :
  monitoring_duration m = Some d ->
  d <= clock w - s ->
  0 <= sleep_time m ->
  quiet_from (length (trace w)) ->
  (is_mean (aggregation m) = true -> readings w <> []) ->
  fs w !! READINGS_FILE <> Some Dir ->
  _carry_out_monitoring_cycle m s w
  = (Ok (clock w + sleep_time m * 1000000),
     slept (sleep_time m)
       (flushed READINGS_FILE
          (set_readings (aggregated m (readings w))
             (add_event (ELog LogAggregating)
                (add_event (ELog LogCycle) w))))).
Proof.
  intros Hd Hge Hst Hq Hne Hdir.
  unfold _carry_out_monitoring_cycle. rewrite Hd.
  rewrite (bind_returns _ _ w (add_event (ELog LogCycle) w) tt)
    by reflexivity.
  rewrite (bind_returns _ _ _ (add_event (ELog LogCycle) w) (clock w))
    by reflexivity.
  destruct (Z.ltb_spec (clock w - s) d) as [|_]; [lia|].
  rewrite (bind_returns _ _ _ _ _
             (aggregate_returns m (add_event (ELog LogCycle) w) Hne)).
  rewrite (bind_returns _ _ _ _ tt
             (save_returns READINGS_FILE
                (set_readings (aggregated m (readings w))
                   (add_event (ELog LogAggregating)
                      (add_event (ELog LogCycle) w))) Hdir)).
  rewrite sleep_block_wake; [reflexivity|assumption|].
  intros k Hk. apply Hq. simpl in Hk. rewrite !length_app in Hk. lia.
Qed.


(** X18.  When the window is over and the buffer is empty in a ['mean']
    mode, the cycle stops at the aggregation with [IndexError]: nothing is
    flushed, the sensor is not put to sleep and there is no pause. *)
Theorem cycle_on_empty_buffer (m : Mode) (s d : Z) (w : World) :
  monitoring_duration m = Some d ->
  d <= clock w - s ->
  aggregation m = Some "mean"%string ->
  readings w = [] ->
  let (o, w') := _carry_out_monitoring_cycle m s w in
  o = Exc IndexError
  /\ fs w' = fs w
  /\ clock w' = clock w
  /\ trace w' = trace w ++ [ELog LogCycle; ELog LogAggregating].
Proof.
  intros Hd Hge Ha Hr. unfold _carry_out_monitoring_cycle. rewrite Hd.
  rewrite (bind_returns _ _ w (add_event (ELog LogCycle) w) tt)
    by reflexivity.
  rewrite (bind_returns _ _ _ (add_event (ELog LogCycle) w) (clock w))
    by reflexivity.
  destruct (Z.ltb_spec (clock w - s) d) as [|_]; [lia|].
  unfold mbind, M_bind, bind.
  rewrite aggregate_mean_empty; [|now rewrite Ha|assumption].
  worlds. auto.
Qed.

(** X19.  After a window has been completed, the next call of the cycle with the
    start it returned takes a reading (the duration being positive): the
    buffer then holds that one reading. *)
Theorem cycle_restarts_window (m : Mode) (s d : Z) (w : World) :
  monitoring_duration m = Some d ->
  0 < d ->
  d <= clock w - s ->
  0 <= sleep_time m ->
  0 <= measurement_period m ->
  quiet_from (length (trace w)) ->
  (is_mean (aggregation m) = true -> readings w <> []) ->
  fs w !! READINGS_FILE <> Some Dir ->
  let (o, w1) := _carry_out_monitoring_cycle m s w in
  exists s1,
    o = Ok s1
    /\ s1 = clock w1
    /\ fst (_carry_out_monitoring_cycle m s1 w1) = Ok s1
    /\ length (readings (snd (_carry_out_monitoring_cycle m s1 w1)))
       = 1%nat.
Proof.
  intros Hd Hpos Hge Hst Hmp Hq Hne Hdir.
  rewrite (cycle_completes m s d w) by assumption.
  eexists. split; [reflexivity|]. split; [reflexivity|].
  rewrite (cycle_reads m _ d); [split; reflexivity|assumption| |assumption|].
  - simpl. lia.
  - intros k Hk. apply Hq. simpl in Hk. rewrite !length_app in Hk. lia.
Qed.

Section CodecOnceMore.

Hypothesis json_round_trip : forall j, json_load (json_dump j) = Some j.
Hypothesis dict_round_trip : forall r, from_dict (to_dict r) = Some r.
Hypothesis empty_not_json : json_load empty_content = None.

(** X20.  In a ['mean'] mode, a completed window adds exactly one record to the
    readings file, whatever the number of readings in the buffer, and
    leaves the buffer empty. *)
Theorem window_adds_one_record (m : Mode) (s d : Z) (w : World) :
  monitoring_duration m = Some d ->
  d <= clock w - s ->
  0 <= sleep_time m ->
  quiet_from (length (trace w)) ->
  aggregation m = Some "mean"%string ->
  readings w <> [] ->
  fs w !! READINGS_FILE <> Some Dir ->
  let (o, w') := _carry_out_monitoring_cycle m s w in
  exists record,
    stored READINGS_FILE w' = stored READINGS_FILE w ++ [record]
    /\ readings w' = [].
Proof.
  intros Hd Hge Hst Hq Ha Hne Hdir.
  rewrite (cycle_completes m s d w); try assumption; [|intros _; exact Hne].
  destruct (py_first_nonempty _ Hne) as (r0 & H0 & _).
  destruct (py_last_nonempty _ Hne) as (rl & Hl & _).
  exists (calculate_aqis_and_bands (mean_measurement (readings w) r0 rl)).
  split; [|reflexivity].
  unfold stored at 1. simpl. rewrite lookup_insert_eq.
  rewrite (parse_dump json_round_trip dict_round_trip). simpl.
  rewrite (read_back_stored empty_not_json) by exact Hdir.
  unfold aggregated. rewrite Ha. simpl. rewrite H0, Hl. reflexivity.
Qed.

End CodecOnceMore.

(** ** What is in the readings file stays there *)

Lemma keeps_bind {A B} (R : World -> World -> Prop) (c : M A)
    (k : A -> M B) :
  (forall w1 w2 w3, R w1 w2 -> R w2 w3 -> R w1 w3) ->
  keeps R c -> (forall a, keeps R (k a)) -> keeps R (c ≫= k).
Proof.
  intros Htrans Hc Hk w. unfold mbind, M_bind, bind. specialize (Hc w).
  destruct (c w) as [[a| |] w']; simpl in *; [|assumption..].
  eapply Htrans; [exact Hc|apply Hk].
Qed.

Lemma persisted_grows_trans (w1 w2 w3 : World) :
  persisted_grows w1 w2 -> persisted_grows w2 w3 -> persisted_grows w1 w3.
Proof.
  unfold persisted_grows. intros H12 H23.
  now transitivity (stored READINGS_FILE w2).
Qed.

Lemma persisted_same_files {A} (c : M A) :
  (forall w, fs (snd (c w)) = fs w) -> keeps persisted_grows c.
Proof.
  intros Hc w. unfold persisted_grows, stored. now rewrite Hc.
Qed.

(** Breaks a computation into its steps; those that leave the files alone
    are discharged. *)
Ltac keeps_steps :=
  repeat first
    [ assumption
    | match goal with H : forall s, keeps _ _ |- _ => exact (H _) end
    | apply persisted_same_files; intros ?; reflexivity
    | apply keeps_bind; [exact persisted_grows_trans| |intros ?]
    | match goal with
      | |- keeps _ (if ?b then _ else _) => destruct b
      | |- keeps _ (match ?x with _ => _ end) => destruct x
      end ].

Lemma keeps_external (e : Event) : keeps persisted_grows (external e).
Proof.
  apply persisted_same_files. intros w. unfold external.
  now destruct (fault (length (trace w))).
Qed.

Lemma keeps_take_reading (m : Mode) :
  keeps persisted_grows (take_reading m).
Proof.
  apply persisted_same_files. intros w.
  apply (take_reading_grows m w).
Qed.

Lemma keeps_aggregate_readings (m : Mode) :
  keeps persisted_grows (aggregate_readings m).
Proof.
  apply persisted_same_files. intros w. unfold aggregate_readings. run.
  destruct (aggregation_truthy (aggregation m)); simpl; [|reflexivity].
  destruct (is_mean (aggregation m)); simpl; [|reflexivity].
  now destruct (raw_average_reading (readings w)).
Qed.

Lemma keeps_time_sleep (z : Z) : keeps persisted_grows (time_sleep z).
Proof.
  apply persisted_same_files. intros w. unfold time_sleep, external. run.
  destruct (z <? 0); [reflexivity|]. run.
  now destruct (fault (length (trace w))).
Qed.

Section CodecInvariant.

Hypothesis json_round_trip : forall j, json_load (json_dump j) = Some j.
Hypothesis dict_round_trip : forall r, from_dict (to_dict r) = Some r.
Hypothesis empty_not_json : json_load empty_content = None.

Lemma keeps_save_readings_to_file :
  keeps persisted_grows (save_readings_to_file READINGS_FILE).
Proof.
  intros w. unfold persisted_grows.
  destruct (fs w !! READINGS_FILE) as [[c|]|] eqn:E.
  2: { now rewrite save_on_directory. }
  all: rewrite save_returns by congruence;
    unfold stored at 2; simpl; rewrite lookup_insert_eq;
    rewrite (parse_dump json_round_trip dict_round_trip); simpl;
    rewrite (read_back_stored empty_not_json) by congruence;
    now apply prefix_app_r.
Qed.

Lemma keeps_monitoring_cycle (m : Mode) (s : Z) :
  keeps persisted_grows (_carry_out_monitoring_cycle m s).
Proof.
  pose proof (keeps_take_reading m).
  pose proof (keeps_aggregate_readings m).
  pose proof keeps_save_readings_to_file.
  pose proof (keeps_time_sleep (sleep_time m)).
  pose proof (keeps_external ESleep).
  pose proof (keeps_external EWake).
  unfold _carry_out_monitoring_cycle, sensor_sleep, sensor_wake.
  keeps_steps.
Qed.

Lemma keeps_continuous_loop (m : Mode) (fuel : nat) :
  keeps persisted_grows (continuous_loop m fuel).
Proof.
  pose proof (keeps_take_reading m).
  induction fuel as [|fuel IH]; simpl; [now apply persisted_same_files|].
  unfold continuous_iteration, is_night. keeps_steps.
Qed.

Lemma keeps_windowed_loop (m : Mode) (fuel : nat) :
  forall s, keeps persisted_grows (windowed_loop m fuel s).
Proof.
  pose proof (keeps_take_reading m).
  pose proof (keeps_monitoring_cycle m).
  induction fuel as [|fuel IH]; intros s; simpl;
    [now apply persisted_same_files|].
  unfold windowed_iteration, is_night. keeps_steps.
Qed.

Lemma keeps_exit (exc : option exn) : keeps persisted_grows (__exit__ exc).
Proof.
  pose proof keeps_save_readings_to_file.
  pose proof (keeps_external ESleep).
  unfold __exit__, sensor_sleep. keeps_steps.
Qed.

Lemma keeps_exiting {A} (body : M A) :
  keeps persisted_grows body -> keeps persisted_grows (exiting body).
Proof.
  intros Hb w. unfold exiting. specialize (Hb w).
  destruct (body w) as [[a| |] w1]; simpl in *; [| |assumption].
  - pose proof (keeps_exit None w1) as He.
    destruct (__exit__ None w1) as [[[]| |] w2]; simpl in *;
      eapply persisted_grows_trans; eassumption.
  - pose proof (keeps_exit (Some e) w1) as He.
    destruct (__exit__ (Some e) w1) as [[[]| |] w2]; simpl in *;
      eapply persisted_grows_trans; eassumption.
Qed.

(** X21.  Whatever the mode, however long the run is observed and whichever call
    to the driver or pause is interrupted, the records that the readings
    file held when [monitor] was called are still in it afterwards, in the
    same order and at the front. *)
Theorem monitor_keeps_records (m : Mode) (fuel : nat) (w : World) :
  stored READINGS_FILE w
    `prefix_of` stored READINGS_FILE (snd (monitor m fuel w)).
Proof.
  assert (Hm : keeps persisted_grows (monitor m fuel)); [|apply Hm].
  pose proof (keeps_continuous_loop m fuel).
  pose proof (keeps_windowed_loop m fuel).
  pose proof (keeps_external EWake).
  unfold monitor, with_self, __enter__, sensor_wake.
  apply keeps_bind; [exact persisted_grows_trans| |intros _].
  { now apply persisted_same_files. }
  apply keeps_bind; [exact persisted_grows_trans| |intros s].
  { now apply persisted_same_files. }
  apply keeps_bind; [exact persisted_grows_trans| |intros _].
  { keeps_steps. }
  apply keeps_exiting. unfold session. keeps_steps.
Qed.

End CodecInvariant.

(** ** The windowed loop without [monitoring_duration], pass by pass *)

Lemma windowed_iteration_reads (m : Mode) (s : Z) (w : World) :
  duration_truthy (monitoring_duration m) = false ->
  0 <= measurement_period m ->
  quiet_from (length (trace w)) ->
  windowed_iteration m s w = (Ok s, reading_taken m w).
Proof.
  intros Hd Hmp Hq. rewrite windowed_iteration_plain by assumption.
  rewrite is_night_at_false, andb_false_r.
  rewrite (bind_returns _ _ w (reading_taken m w) tt); [reflexivity|].
  apply take_reading_returns; [assumption|apply Hq; lia..].
Qed.

Lemma windowed_run_trace (m : Mode) (n : nat) :
  duration_truthy (monitoring_duration m) = false ->
  0 <= measurement_period m ->
  forall s w,
    quiet_from (length (trace w)) ->
    exists w' seg,
      windowed_loop m n s w = (Cut, w')
      /\ length (readings w') = (length (readings w) + n)%nat
      /\ clock w' = clock w + Z.of_nat n * (measurement_period m * 1000000)
      /\ trace w' = trace w ++ seg
      /\ count is_query seg = n
      /\ count is_sensor_sleep seg = 0%nat
      /\ fs w' = fs w.
Proof.
  intros Hd Hmp. induction n as [|n IH]; intros s w Hq.
  - exists w, []. rewrite app_nil_r, Nat.add_0_r.
    repeat split; try reflexivity. simpl. lia.
  - assert (Hq' : quiet_from (length (trace (reading_taken m w)))).
    { apply (quiet_from_le (length (trace w))); [|assumption].
      simpl. rewrite length_app. lia. }
    destruct (IH s (reading_taken m w) Hq')
      as (w' & seg & Hrun & Hr & Hc & Htr & Hquery & Hsleep & Hfs).
    exists w'. eexists.
    cbn [windowed_loop].
    rewrite (bind_returns _ _ _ _ _ (windowed_iteration_reads m s w Hd Hmp Hq)).
    split; [exact Hrun|]. split.
    { rewrite Hr. simpl. rewrite length_app. simpl. lia. }
    split.
    { rewrite Hc. simpl. lia. }
    split.
    { rewrite Htr. simpl. rewrite <- app_assoc. reflexivity. }
    split; [|split; [|now rewrite Hfs]].
    + rewrite count_app, Hquery. reflexivity.
    + rewrite count_app, Hsleep. reflexivity.
Qed.

(** C9.  In a mode with [sleep_time > 0] and no [monitoring_duration]:
    each pass of the loop takes a reading directly, unless the night gate
    holds it back; the loop runs the same whatever the value of
    [sleep_time]; all it does to the outside is what [take_reading] does
    (the sensor is never put to sleep and the only pause is the
    [measurement_period] after a reading); and an uninterrupted loop
    observed for [fuel] passes has taken [fuel] readings, one on every
    pass, and has paused for [fuel] times [measurement_period] and no
    more. *)
Theorem windowed_without_duration (m : Mode) (fuel : nat) (s : Z)
    (w : World) :
  0 < sleep_time m ->
  monitoring_duration m = None ->
  (forall s' w',
      windowed_iteration m s' w' =
        if negb (night_monitoring m)
           && is_night_at (TimeOfDay.of_clock (clock w'))
        then (Ok s', w')
        else (take_reading m;; mret s') w')
  /\ (forall z, z <> 0 ->
        session (set_sleep_time z m) fuel s w = session m fuel s w)
  /\ (exists seg,
        trace (snd (session m fuel s w))
          = trace w ++ ELog LogNonContinuous :: seg
        /\ Forall (reading_event m) seg)
  /\ (0 <= measurement_period m ->
      quiet_from (length (trace w)) ->
      let (o, w') := session m fuel s w in
      o = Cut
      /\ length (readings w') = (length (readings w) + fuel)%nat
      /\ count is_query (drop (length (trace w)) (trace w')) = fuel
      /\ count is_sensor_sleep (drop (length (trace w)) (trace w')) = 0%nat
      /\ clock w'
         = clock w + Z.of_nat fuel * (measurement_period m * 1000000)
      /\ fs w' = fs w).
Proof.
  intros Hpos Hd.
  assert (Hf : duration_truthy (monitoring_duration m) = false)
    by now rewrite Hd.
  split; [|split; [|split]].
  - intros s' w'. now apply windowed_iteration_plain.
  - intros z Hz. unfold session. simpl.
    destruct (Z.eqb_spec z 0) as [|_]; [contradiction|].
    destruct (Z.eqb_spec (sleep_time m) 0) as [E|_]; [lia|].
    run. now apply windowed_loop_sleep_time.
  - unfold session.
    destruct (Z.eqb_spec (sleep_time m) 0) as [E|_]; [lia|].
    run.
    destruct (emits_windowed_loop_plain m fuel Hf s
                (add_event (ELog LogNonContinuous) w)) as (seg & Hseg & HP).
    exists seg. split; [|assumption].
    rewrite Hseg. simpl. now rewrite <- app_assoc.
  - intros Hmp Hq. unfold session.
    destruct (Z.eqb_spec (sleep_time m) 0) as [E|_]; [lia|].
    rewrite (bind_returns _ _ w (add_event (ELog LogNonContinuous) w) tt)
      by reflexivity.
    assert (Hq0 : quiet_from
                    (length (trace (add_event (ELog LogNonContinuous) w)))).
    { apply (quiet_from_le (length (trace w))); [|assumption].
      simpl. rewrite length_app. lia. }
    destruct (windowed_run_trace m fuel Hf Hmp s
                (add_event (ELog LogNonContinuous) w) Hq0)
      as (w' & seg & Hrun & Hr & Hc & Htr & Hquery & Hsleep & Hfs).
    rewrite Hrun, Htr. simpl. rewrite <- app_assoc, drop_app_length.
    rewrite !count_app, Hquery, Hsleep. simpl in *.
    repeat split; assumption || reflexivity.
Qed.

(** ** The teardown, whatever becomes of it *)

Lemma exit_sleep_raises (e e' : exn) (w : World) :
  fault (length (trace w) + 3) = Some e' ->
  __exit__ (Some e) w = (Exc e', exited e w).
Proof.
  intros Hs. unfold __exit__, sensor_sleep, external. run.
  rewrite !length_app. simpl. rewrite <- !Nat.add_assoc. simpl.
  now rewrite Hs.
Qed.

Lemma exit_on_directory (e : exn) (w : World) :
  fault (length (trace w) + 3) = None ->
  fs w !! READINGS_FILE = Some Dir ->
  __exit__ (Some e) w = (Exc IsADirectoryError, exited e w).
Proof.
  intros Hs Hdir. unfold __exit__, sensor_sleep. run.
  rewrite external_returns by (len; exact Hs). run.
  now rewrite save_on_directory.
Qed.

(** C5.  When the block under [with self:] is interrupted by an exception
    [e], whatever the mode, the point and the exception, [monitor] runs
    the teardown once, and nothing before the interruption had run it.
    The teardown makes one [sleep] call to the sensor.  When that call
    returns, it is followed by one flush of the buffer as it was at the
    interruption: the readings file then holds what it held followed by
    that buffer, the buffer is empty and [e] surfaces; if the readings
    path is a directory the flush raises [IsADirectoryError] in place of
    [e].  When the [sleep] call raises, its exception surfaces in place of
    [e] and there is no flush. *)
Theorem teardown_runs_once (m : Mode) (fuel : nat) (w w1 : World)
    (e : exn) :
  fault (length (trace w) + 2) = None ->
  session m fuel (clock w) (entered m w) = (Exc e, w1) ->
  let (o, w2) := monitor m fuel w in
  (exists seg,
     trace w2 = trace w1
                ++ [ELog LogExiting; ELog (LogException e); EPrintTb e;
                    ESleep]
                ++ seg
     /\ count is_sensor_sleep seg = 0%nat
     /\ match fault (length (trace w1) + 3) with
        | Some e' =>
            o = Exc e' /\ seg = []
            /\ fs w2 = fs w1 /\ readings w2 = readings w1
        | None =>
            match fs w1 !! READINGS_FILE with
            | Some Dir =>
                o = Exc IsADirectoryError /\ seg = []
                /\ fs w2 = fs w1 /\ readings w2 = readings w1
            | _ =>
                o = Exc e
                /\ seg = flush_log READINGS_FILE w1
                /\ count is_file_write seg = 1%nat
                /\ fs w2 !! READINGS_FILE
                   = Some (File (dump_records
                                   (default []
                                      (parse_records
                                         (read_back READINGS_FILE w1))
                                    ++ readings w1)))
                /\ readings w2 = []
            end
        end)
  /\ count is_exiting (drop (length (trace w)) (trace w2)) = 1%nat.
Proof.
  intros Hwake Hbody.
  rewrite monitor_enters by assumption. unfold exiting. rewrite Hbody.
  destruct (emits_session m fuel (clock w) (entered m w)) as (body & Hseg & HP).
  rewrite Hbody in Hseg. simpl in Hseg.
  destruct (count_flush_log READINGS_FILE w1) as (Hc1 & Hc2 & Hc3).
  assert (Hcount : forall seg,
             count is_exiting seg = 0%nat ->
             count is_exiting
               (drop (length (trace w))
                  (trace w1
                   ++ [ELog LogExiting; ELog (LogException e); EPrintTb e;
                       ESleep] ++ seg)) = 1%nat).
  { intros seg Hz. rewrite Hseg, <- !app_assoc, drop_app_length. simpl.
    change (EPrintMode m :: ELog LogEntering :: EWake :: body ++ ?l)
      with ([EPrintMode m; ELog LogEntering; EWake] ++ body ++ l).
    rewrite !count_app, (count_session_exiting body HP).
    change (ELog LogExiting :: ELog (LogException e) :: EPrintTb e :: ESleep
            :: seg)
      with ([ELog LogExiting; ELog (LogException e); EPrintTb e; ESleep]
            ++ seg).
    rewrite count_app, Hz. reflexivity. }
  destruct (fault (length (trace w1) + 3)) as [e'|] eqn:Hs.
  - rewrite (exit_sleep_raises e e' w1 Hs). split.
    + exists []. simpl. rewrite <- !app_assoc. simpl.
      repeat split; reflexivity.
    + rewrite <- (Hcount [] eq_refl). simpl. now rewrite <- !app_assoc.
  - destruct (fs w1 !! READINGS_FILE) as [[c|]|] eqn:E.
    2: { rewrite (exit_on_directory e w1 Hs E). split.
         + exists []. simpl. rewrite <- !app_assoc. simpl.
      repeat split; reflexivity.
         + rewrite <- (Hcount [] eq_refl). simpl. now rewrite <- !app_assoc. }
    all: rewrite exit_returns by (try assumption; congruence); split;
      [ exists (flush_log READINGS_FILE w1); simpl;
        rewrite <- !app_assoc, lookup_insert_eq; simpl;
        repeat split; assumption || reflexivity
      | rewrite <- (Hcount (flush_log READINGS_FILE w1) Hc2); simpl;
        now rewrite <- !app_assoc ].
Qed.

End Properties.

(** * The properties at work in the concrete setting *)

Import Demo.

Lemma json_round_trip (j : json Z) : json_load (json_dump j) = Some j.
Proof. reflexivity. Qed.

Lemma dict_round_trip (r : Reading Z Z) : from_dict (to_dict r) = Some r.
Proof. destruct r. reflexivity. Qed.

Lemma empty_not_json : json_load (empty_content (content := bytes)) = None.
Proof. reflexivity. Qed.

Lemma steady_quiet (n : nat) : quiet_from n.
Proof. intros k _. reflexivity. Qed.

(** Two readings of 5 and 7 aggregate to 12, their sum, at the time
    100 + (100 + 104) / 2. *)
Example aggregate_mean_sums :
  readings (snd (aggregate_readings averaging two_readings))
  = [reading 202 12 19].
Proof. reflexivity. Qed.

(** The cycle at 5 s and at 11 s of a 10 s window with a 5 s sleep. *)
Example cycle_within_window :
  fst (_carry_out_monitoring_cycle averaging 0 five_seconds_in) = Ok 0.
Proof. reflexivity. Qed.

Example cycle_after_window :
  fst (_carry_out_monitoring_cycle averaging 0 eleven_seconds_in)
  = Ok 16000000.
Proof. vm_compute. reflexivity. Qed.

Lemma save_appends_buffer_witness :
  fst (save_readings_to_file READINGS_FILE over_one_record) = Ok tt
  /\ stored READINGS_FILE
       (snd (save_readings_to_file READINGS_FILE over_one_record))
     = [reading 100 5 10; reading 104 7 9]
  /\ readings (snd (save_readings_to_file READINGS_FILE over_one_record))
     = [].
Proof.
  split; [vm_compute; reflexivity|].
  apply (save_appends_buffer json_round_trip dict_round_trip empty_not_json
           READINGS_FILE over_one_record).
  vm_compute; reflexivity.
Defined.

Lemma save_over_corrupt_file_witness :
  let (o, w') := save_readings_to_file READINGS_FILE over_garbage in
  o = Ok tt
  /\ fs w' !! READINGS_FILE = Some (File (dump_records [reading 108 3 4]))
  /\ stored READINGS_FILE w' = [reading 108 3 4]
  /\ readings w' = [].
Proof.
  apply (save_over_corrupt_file json_round_trip dict_round_trip
           READINGS_FILE (Garbage "}{") over_garbage);
    vm_compute; reflexivity.
Defined.


Lemma teardown_runs_once_witness :
  let (o, w2) := monitor (Drv := failing) continuous 5 nothing_buffered in
  (exists seg,
     trace w2 = trace interrupted
                ++ [ELog LogExiting; ELog (LogException (DriverError 7));
                    EPrintTb (DriverError 7); ESleep]
                ++ seg
     /\ count is_sensor_sleep seg = 0%nat
     /\ match fault (Driver := failing) (length (trace interrupted) + 3) with
        | Some e' =>
            o = Exc e' /\ seg = []
            /\ fs w2 = fs interrupted /\ readings w2 = readings interrupted
        | None =>
            match fs interrupted !! READINGS_FILE with
            | Some Dir =>
                o = Exc IsADirectoryError /\ seg = []
                /\ fs w2 = fs interrupted
                /\ readings w2 = readings interrupted
            | _ =>
                o = Exc (DriverError 7)
                /\ seg = flush_log READINGS_FILE interrupted
                /\ count is_file_write seg = 1%nat
                /\ fs w2 !! READINGS_FILE
                   = Some (File (dump_records
                                   (default []
                                      (parse_records
                                         (read_back READINGS_FILE
                                            interrupted))
                                    ++ readings interrupted)))
                /\ readings w2 = []
            end
        end)
  /\ count is_exiting (drop (length (trace nothing_buffered)) (trace w2))
     = 1%nat.
Proof.
  apply (teardown_runs_once (Drv := failing) continuous 5 nothing_buffered
           interrupted (DriverError 7));
    vm_compute; reflexivity.
Defined.

(** The sleep call of the teardown fails: the session was interrupted, the
    sensor was asked to sleep once, and nothing was flushed. *)
Lemma teardown_without_flush :
  session (Drv := failing_twice) continuous 5 (clock nothing_buffered)
    (entered continuous nothing_buffered)
  = (Exc (DriverError 7), interrupted_twice)
  /\ let w2 :=
       snd (monitor (Drv := failing_twice) continuous 5 nothing_buffered) in
     count is_sensor_sleep
       (drop (length (trace interrupted_twice)) (trace w2)) = 1%nat
     /\ count is_file_write
          (drop (length (trace interrupted_twice)) (trace w2)) = 0%nat
     /\ fs w2 !! READINGS_FILE = None
     /\ readings w2 = [reading 5 5 10].
Proof. vm_compute. repeat split; reflexivity. Qed.

Lemma aggregate_mean_measurement_witness :
  exists r0 rl,
    readings two_readings !! 0%nat = Some r0
    /\ last (readings two_readings) = Some rl
    /\ let raw :=
         {| raw_time := nadd (time r0) (nhalf (nadd (time r0) (time rl)));
            raw_pm25 := fold_left nadd (map pm25 (readings two_readings)) nzero;
            raw_pm10 := fold_left nadd (map pm10 (readings two_readings)) nzero
         |} in
       let (o, w') := aggregate_readings averaging two_readings in
       o = Ok tt /\ readings w' = [calculate_aqis_and_bands raw].
Proof.
  apply (aggregate_mean_measurement averaging two_readings);
    [reflexivity | discriminate].
Defined.

Lemma aggregate_mean_singleton_witness :
  fst (aggregate_readings averaging two_readings) = Ok tt
  /\ length (readings (snd (aggregate_readings averaging two_readings)))
     = 1%nat.
Proof.
  apply (aggregate_mean_singleton averaging two_readings);
    [reflexivity | simpl; lia].
Defined.

Lemma aggregate_unset_noop_witness :
  let (o, w') := aggregate_readings continuous two_readings in
  o = Ok tt
  /\ readings w' = readings two_readings
  /\ fs w' = fs two_readings
  /\ clock w' = clock two_readings
  /\ trace w' = trace two_readings ++ [ELog LogAggregating].
Proof.
  apply (aggregate_unset_noop continuous two_readings). reflexivity.
Defined.

Lemma windowed_without_duration_witness :
  (forall s' w',
      windowed_iteration plain_windowed s' w' =
        if negb (night_monitoring plain_windowed)
           && is_night_at (TimeOfDay.of_clock (clock w'))
        then (Ok s', w')
        else bind (take_reading plain_windowed) (fun _ => ret s') w')
  /\ (forall z, z <> 0 ->
        session (set_sleep_time z plain_windowed) 4 0 nothing_buffered
        = session plain_windowed 4 0 nothing_buffered)
  /\ (exists seg,
        trace (snd (session plain_windowed 4 0 nothing_buffered))
          = trace nothing_buffered ++ ELog LogNonContinuous :: seg
        /\ Forall (reading_event plain_windowed) seg)
  /\ (let (o, w') := session plain_windowed 4 0 nothing_buffered in
      o = Cut
      /\ length (readings w') = (length (readings nothing_buffered) + 4)%nat
      /\ count is_query (drop (length (trace nothing_buffered)) (trace w'))
         = 4%nat
      /\ count is_sensor_sleep
           (drop (length (trace nothing_buffered)) (trace w')) = 0%nat
      /\ clock w'
         = clock nothing_buffered
           + Z.of_nat 4 * (measurement_period plain_windowed * 1000000)
      /\ fs w' = fs nothing_buffered).
Proof.
  destruct (windowed_without_duration plain_windowed 4 0 nothing_buffered)
    as (H1 & H2 & H3 & H4); [simpl; lia | reflexivity |].
  split; [exact H1|]. split; [exact H2|]. split; [exact H3|].
  apply H4; [simpl; lia | apply steady_quiet].
Defined.

Lemma aggregate_mean_needs_reading_witness :
  ((exists r0 rl,
       py_first (readings two_readings) = Ok r0
       /\ py_last (readings two_readings) = Ok rl)
   /\ fst (aggregate_readings averaging two_readings) = Ok tt)
  /\ (fst (aggregate_readings averaging nothing_buffered) = Exc IndexError
      /\ readings (snd (aggregate_readings averaging nothing_buffered))
         = readings nothing_buffered).
Proof.
  split.
  - apply (proj1 (aggregate_mean_needs_reading averaging two_readings
                    eq_refl)).
    discriminate.
  - apply (proj2 (aggregate_mean_needs_reading averaging nothing_buffered
                    eq_refl)).
    reflexivity.
Defined.

(** ** The further properties in the concrete setting *)

Lemma continuous_ignores_window_witness :
  session (set_window (Some 5) (Some "mean"%string) continuous) 3 0
    nothing_buffered
  = session continuous 3 0 nothing_buffered.
Proof.
  apply (continuous_ignores_window continuous (Some 5) (Some "mean"%string)
           3 0 nothing_buffered).
  reflexivity.
Defined.

Lemma continuous_session_only_reads_witness :
  let w' := snd (session continuous 3 0 nothing_buffered) in
  fs w' = fs nothing_buffered
  /\ (exists new, readings w' = readings nothing_buffered ++ new)
  /\ (exists seg,
        trace w' = trace nothing_buffered ++ ELog LogContinuous :: seg
        /\ Forall (reading_event continuous) seg).
Proof.
  apply (continuous_session_only_reads continuous 3 0 nothing_buffered).
  reflexivity.
Defined.

Lemma failed_wake_skips_teardown_witness :
  let (o, w') :=
    monitor (Drv := failing_at 2 (DriverError 1)) continuous 5
      nothing_buffered in
  o = Exc (DriverError 1)
  /\ trace w' = trace nothing_buffered
                ++ [EPrintMode continuous; ELog LogEntering; EWake]
  /\ fs w' = fs nothing_buffered
  /\ readings w' = readings nothing_buffered.
Proof.
  apply (failed_wake_skips_teardown (Drv := failing_at 2 (DriverError 1))
           continuous 5 nothing_buffered (DriverError 1)).
  reflexivity.
Defined.

Lemma failed_sleep_skips_flush_witness :
  let (o, w2) :=
    monitor (Drv := failing_twice) continuous 5 nothing_buffered in
  o = Exc (DriverError 8)
  /\ fs w2 = fs interrupted_twice
  /\ readings w2 = readings interrupted_twice
  /\ trace w2 = trace interrupted_twice
                ++ [ELog LogExiting; ELog (LogException (DriverError 7));
                    EPrintTb (DriverError 7); ESleep].
Proof.
  apply (failed_sleep_skips_flush (Drv := failing_twice) continuous 5
           nothing_buffered interrupted_twice (DriverError 7)
           (DriverError 8));
    vm_compute; reflexivity.
Defined.

Lemma teardown_on_directory_witness :
  let (o, w2) :=
    monitor (Drv := failing) continuous 5 readings_is_directory in
  o = Exc IsADirectoryError
  /\ fs w2 = fs interrupted_over_directory
  /\ readings w2 = readings interrupted_over_directory
  /\ trace w2 = trace interrupted_over_directory
                ++ [ELog LogExiting; ELog (LogException (DriverError 7));
                    EPrintTb (DriverError 7); ESleep].
Proof.
  apply (teardown_on_directory (Drv := failing) continuous 5
           readings_is_directory interrupted_over_directory
           (DriverError 7));
    vm_compute; reflexivity.
Defined.

Lemma take_reading_effect_witness :
  let reading :=
    calculate_aqis_and_bands
      (sample (length (trace two_readings) + 1)) in
  let (o, w') := take_reading averaging two_readings in
  o = Ok tt
  /\ readings w' = readings two_readings ++ [reading]
  /\ clock w' = clock two_readings + measurement_period averaging * 1000000
  /\ fs w' = fs two_readings
  /\ trace w' = trace two_readings
                ++ [ELog LogTaking; EQuery; EPrintReading (to_dict reading);
                    ETimeSleep (measurement_period averaging)].
Proof.
  apply (take_reading_effect averaging two_readings);
    [simpl; lia | reflexivity | reflexivity].
Defined.

Lemma take_reading_failed_query_witness :
  let (o, w') :=
    take_reading (Drv := failing_at 1 (DriverError 2)) averaging
      two_readings in
  o = Exc (DriverError 2)
  /\ readings w' = readings two_readings
  /\ clock w' = clock two_readings
  /\ trace w' = trace two_readings ++ [ELog LogTaking; EQuery].
Proof.
  apply (take_reading_failed_query (Drv := failing_at 1 (DriverError 2))
           averaging two_readings (DriverError 2)).
  reflexivity.
Defined.

Lemma take_reading_interrupted_pause_witness :
  let reading :=
    calculate_aqis_and_bands
      (sample (Driver := failing_at 3 KeyboardInterrupt)
         (length (trace two_readings) + 1)) in
  let (o, w') :=
    take_reading (Drv := failing_at 3 KeyboardInterrupt) averaging
      two_readings in
  o = Exc KeyboardInterrupt
  /\ readings w' = readings two_readings ++ [reading]
  /\ clock w' = clock two_readings
  /\ trace w' = trace two_readings
                ++ [ELog LogTaking; EQuery; EPrintReading (to_dict reading);
                    ETimeSleep (measurement_period averaging)].
Proof.
  apply (take_reading_interrupted_pause
           (Drv := failing_at 3 KeyboardInterrupt) averaging two_readings
           KeyboardInterrupt);
    [simpl; lia | reflexivity | reflexivity].
Defined.

Lemma continuous_run_witness :
  let (o, w') := continuous_loop continuous 3 nothing_buffered in
  o = Cut
  /\ length (readings w') = (length (readings nothing_buffered) + 3)%nat
  /\ clock w' = clock nothing_buffered
                + Z.of_nat 3 * (measurement_period continuous * 1000000)
  /\ count is_query (drop (length (trace nothing_buffered)) (trace w'))
     = 3%nat
  /\ fs w' = fs nothing_buffered.
Proof.
  apply (continuous_run continuous 3 nothing_buffered);
    [simpl; lia | apply steady_quiet].
Defined.

Lemma flush_to_directory_witness :
  save_readings_to_file READINGS_FILE readings_is_directory
  = (Exc IsADirectoryError, readings_is_directory).
Proof.
  apply (flush_to_directory READINGS_FILE readings_is_directory).
  vm_compute; reflexivity.
Defined.

Lemma flush_creates_missing_file_witness :
  let (o, w') := save_readings_to_file READINGS_FILE two_readings in
  o = Ok tt
  /\ fs w' !! READINGS_FILE
     = Some (File (dump_records (readings two_readings)))
  /\ stored READINGS_FILE w' = readings two_readings
  /\ readings w' = []
  /\ trace w' = trace two_readings
                ++ [ELog (LogNotFound READINGS_FILE);
                    ELog (LogOpening READINGS_FILE); ELog LogCorrupt;
                    ELog (LogWriting READINGS_FILE)].
Proof.
  apply (flush_creates_missing_file json_round_trip dict_round_trip
           empty_not_json READINGS_FILE two_readings).
  vm_compute; reflexivity.
Defined.

Lemma flush_twice_witness :
  let w1 := snd (save_readings_to_file READINGS_FILE over_one_record) in
  let (o, w2) :=
    save_readings_to_file READINGS_FILE
      (set_readings [reading 108 3 4] w1) in
  o = Ok tt
  /\ stored READINGS_FILE w2
     = stored READINGS_FILE over_one_record
       ++ readings over_one_record ++ [reading 108 3 4]
  /\ readings w2 = [].
Proof.
  apply (flush_twice json_round_trip dict_round_trip empty_not_json
           READINGS_FILE [reading 108 3 4] over_one_record).
  vm_compute; discriminate.
Defined.

Lemma aggregate_unknown_reducer_witness :
  let (o, w') := aggregate_readings median two_readings in
  o = Ok tt
  /\ readings w' = readings two_readings
  /\ fs w' = fs two_readings
  /\ trace w' = trace two_readings ++ [ELog LogAggregating].
Proof.
  apply (aggregate_unknown_reducer median "median"%string two_readings);
    [reflexivity | discriminate].
Defined.

Lemma cycle_on_empty_buffer_witness :
  let (o, w') := _carry_out_monitoring_cycle averaging 0 eleven_seconds_empty in
  o = Exc IndexError
  /\ fs w' = fs eleven_seconds_empty
  /\ clock w' = clock eleven_seconds_empty
  /\ trace w' = trace eleven_seconds_empty
                ++ [ELog LogCycle; ELog LogAggregating].
Proof.
  apply (cycle_on_empty_buffer averaging 0 10000000 eleven_seconds_empty);
    [reflexivity | simpl; lia | reflexivity | reflexivity].
Defined.

Lemma cycle_restarts_window_witness :
  let (o, w1) := _carry_out_monitoring_cycle averaging 0 eleven_seconds_in in
  exists s1,
    o = Ok s1
    /\ s1 = clock w1
    /\ fst (_carry_out_monitoring_cycle averaging s1 w1) = Ok s1
    /\ length (readings (snd (_carry_out_monitoring_cycle averaging s1 w1)))
       = 1%nat.
Proof.
  apply (cycle_restarts_window averaging 0 10000000 eleven_seconds_in);
    first [ reflexivity | simpl; lia | apply steady_quiet
          | discriminate | vm_compute; discriminate ].
Defined.

Lemma window_adds_one_record_witness :
  let (o, w') := _carry_out_monitoring_cycle averaging 0 eleven_seconds_in in
  exists record,
    stored READINGS_FILE w' = stored READINGS_FILE eleven_seconds_in ++ [record]
    /\ readings w' = [].
Proof.
  apply (window_adds_one_record json_round_trip dict_round_trip
           empty_not_json averaging 0 10000000 eleven_seconds_in);
    first [ reflexivity | simpl; lia | apply steady_quiet
          | discriminate | vm_compute; discriminate ].
Defined.

Lemma monitor_keeps_records_witness :
  stored READINGS_FILE over_one_record
    `prefix_of`
    stored READINGS_FILE (snd (monitor averaging 10 over_one_record)).
Proof.
  apply (monitor_keeps_records json_round_trip dict_round_trip
           empty_not_json averaging 10 over_one_record).
Defined.
